(** * AeroWeather: shallow embedding of the METAR/TAF/NOTAM normalisation code

    Source files embedded:
    - custom_components/aeroweather/sensor.py      (field extractors, derived metrics)
    - custom_components/aeroweather/coordinator.py (weather fetch, coordinator set-up)
    - custom_components/aeroweather/notams.py      (NOTAM fetch adapter)

    Modelling conventions.
    - Python values received from JSON are the inductive [py]; a [dict] is an
      association list (first binding wins, as a Python dict has unique keys).
    - Python exceptions are the values of [exn]; a computation that may raise
      lives in the error monad [res].
    - A Python float is [fl]: a finite value is represented by its exact
      rational value (binary64 rounding of arithmetic is not modelled), plus
      the two infinities and NaN.  Sums and products overflow to an infinity
      past the binary64 range; the conversions [float()] and [int()] keep
      CPython's range behaviour (OverflowError / inf / ValueError).
    - Strings are Stdlib [string]s of 8-bit characters; [str.strip],
      [str.upper], [float()] and the regular-expression classes [\b], [\d],
      [\s], [\w] are taken on the ASCII range, where they agree with
      Python's Unicode-aware ones.  Theorems about text that goes through
      them assume ASCII text ([dict_ascii]). *)

From Stdlib Require Import ZArith QArith Qabs Qround String Ascii List Bool Lia Lqa DecimalString Sorted Permutation.
Import ListNotations.

Open Scope Z_scope.
Open Scope string_scope.
Set Warnings "-register-all".

(** ** Python values, exceptions and the error monad *)

Inductive fl : Type :=
| Fin (q : Q)
| Inf (neg : bool)
| NaN.

Inductive py : Type :=
| PNone
| PBool (b : bool)
| PInt (z : Z)
| PFloat (f : fl)
| PStr (s : string)
| PList (l : list py)
| PDict (kv : list (string * py)).

Definition dict : Type := list (string * py).

Inductive exn : Type :=
| TypeError
| ValueError
| OverflowError
| ZeroDivisionError
| AttributeError
| TimeoutError
| ClientResponseError (status : Z)
| JSONDecodeError
| RuntimeError (msg : string)
| UpdateFailed (msg : string).

Inductive res (A : Type) : Type :=
| Ok (a : A)
| Raise (e : exn).
Arguments Ok {A} a.
Arguments Raise {A} e.

Definition bind {A B : Type} (m : res A) (k : A -> res B) : res B :=
  match m with
  | Ok a => k a
  | Raise e => Raise e
  end.

Notation "'let*' x ':=' m 'in' k" := (bind m (fun x => k))
  (at level 200, x name, m at level 100, k at level 200).

(** [d.get(k)]: [None] when the key is missing. *)
Fixpoint dict_lookup (d : dict) (k : string) : option py :=
  match d with
  | [] => None
  | (k', v) :: d' => if String.eqb k k' then Some v else dict_lookup d' k
  end.

Definition dict_get (d : dict) (k : string) : py :=
  match dict_lookup d k with
  | Some v => v
  | None => PNone
  end.

(** [obj.get(k)] on an arbitrary value: only a dict has [.get]. *)
Definition py_get (v : py) (k : string) : res py :=
  match v with
  | PDict kv => Ok (dict_get kv k)
  | _ => Raise AttributeError
  end.

Definition is_none (v : py) : bool :=
  match v with PNone => true | _ => false end.

(** Python truthiness ([if not x]). *)
Definition truthy (v : py) : bool :=
  match v with
  | PNone => false
  | PBool b => b
  | PInt z => negb (Z.eqb z 0)
  | PFloat (Fin q) => negb (Qeq_bool q 0%Q)
  | PFloat _ => true
  | PStr s => negb (String.eqb s "")
  | PList l => match l with [] => false | _ => true end
  | PDict kv => match kv with [] => false | _ => true end
  end.

(** [iter(v)] as used by a [for] loop. *)
Definition py_iter (v : py) : res (list py) :=
  match v with
  | PList l => Ok l
  | PStr s => Ok (map (fun c => PStr (String c EmptyString)) (list_ascii_of_string s))
  | PDict kv => Ok (map (fun p => PStr (fst p)) kv)
  | _ => Raise TypeError
  end.

(** sensor.py [_first_present]: first key present with a non-None value. *)
Fixpoint _first_present (d : dict) (keys : list string) : py :=
  match keys with
  | [] => PNone
  | k :: ks =>
      match dict_lookup d k with
      | Some PNone | None => _first_present d ks
      | Some v => v
      end
  end.

(** ** Floats *)

Definition fl_neg (a : fl) : fl :=
  match a with
  | Fin x => Fin (Qred (- x)%Q)
  | Inf s => Inf (negb s)
  | NaN => NaN
  end.

Definition Qlt_bool (x y : Q) : bool := negb (Qle_bool y x).

Definition q_neg (x : Q) : bool := Qlt_bool x 0%Q.
Definition q_zero (x : Q) : bool := Qeq_bool x 0%Q.

(** Smallest magnitude that no longer rounds to a finite binary64:
    2^1024 - 2^970 (half an ulp above the largest finite double). *)
Definition float_overflow_bound : Z := 2 ^ 1024 - 2 ^ 970.

(** The float result of an exact value: an infinity of its sign from
    [float_overflow_bound] on (IEEE overflow under round-to-nearest), the
    value itself below it. *)
Definition fl_round (x : Q) : fl :=
  if Qle_bool (inject_Z float_overflow_bound) (Qabs x) then Inf (q_neg x) else Fin (Qred x).

Definition fl_add (a b : fl) : fl :=
  match a, b with
  | NaN, _ | _, NaN => NaN
  | Fin x, Fin y => fl_round (x + y)%Q
  | Inf s, Inf t => if Bool.eqb s t then Inf s else NaN
  | Inf s, Fin _ | Fin _, Inf s => Inf s
  end.

Definition fl_sub (a b : fl) : fl := fl_add a (fl_neg b).

Definition fl_mul (a b : fl) : fl :=
  match a, b with
  | NaN, _ | _, NaN => NaN
  | Fin x, Fin y => fl_round (x * y)%Q
  | Inf s, Inf t => Inf (xorb s t)
  | Inf s, Fin y | Fin y, Inf s => if q_zero y then NaN else Inf (xorb s (q_neg y))
  end.

(** Python [a / b] on floats: division by zero raises.  Every division of
    the embedded code has a divisor of magnitude at least 1 (1000, 100,
    33.8638866667, 1609.344, or a fraction's whole-number denominator), so a
    quotient of a finite float never leaves the float range and is kept
    exact. *)
Definition fl_div (a b : fl) : res fl :=
  match a, b with
  | _, Fin y => if q_zero y then Raise ZeroDivisionError else
      match a with
      | Fin x => Ok (Fin (Qred (x / y)%Q))
      | Inf s => Ok (Inf (xorb s (q_neg y)))
      | NaN => Ok NaN
      end
  | NaN, _ | _, NaN => Ok NaN
  | Inf _, Inf _ => Ok NaN
  | Fin _, Inf _ => Ok (Fin 0%Q)
  end.

(** Python [a < b] on floats (IEEE: every comparison with NaN is false). *)
Definition fl_lt (a b : fl) : bool :=
  match a, b with
  | NaN, _ | _, NaN => false
  | Fin x, Fin y => Qlt_bool x y
  | Inf true, Inf true => false
  | Inf true, _ => true
  | Inf false, _ => false
  | Fin _, Inf neg => negb neg
  end.

(** Round half to even, the rounding of Python's [round]. *)
Definition Qround_half_even (q : Q) : Z :=
  let f := Qfloor q in
  let r := (q - inject_Z f)%Q in
  if Qlt_bool r (1 # 2)%Q then f
  else if Qlt_bool (1 # 2)%Q r then f + 1
  else if Z.even f then f else f + 1.

(** ** Characters and strings (ASCII range) *)

Definition code (c : ascii) : nat := nat_of_ascii c.

Definition is_digit (c : ascii) : bool := (48 <=? code c)%nat && (code c <=? 57)%nat.
Definition is_upper (c : ascii) : bool := (65 <=? code c)%nat && (code c <=? 90)%nat.
Definition is_lower (c : ascii) : bool := (97 <=? code c)%nat && (code c <=? 122)%nat.

(** [\w]: letters, digits and underscore. *)
Definition is_word (c : ascii) : bool :=
  is_digit c || is_upper c || is_lower c || Ascii.eqb c "_"%char.

(** [str.isspace] / [\s]: \t \n \v \f \r, the separators \x1c-\x1f and space. *)
Definition is_space (c : ascii) : bool :=
  ((9 <=? code c)%nat && (code c <=? 13)%nat) || ((28 <=? code c)%nat && (code c <=? 32)%nat).

Definition digit_val (c : ascii) : Z := Z.of_nat (code c - 48).

Definition to_upper_char (c : ascii) : ascii :=
  if is_lower c then ascii_of_nat (code c - 32) else c.
Definition to_lower_char (c : ascii) : ascii :=
  if is_upper c then ascii_of_nat (code c + 32) else c.

Fixpoint drop_spaces (l : list ascii) : list ascii :=
  match l with
  | c :: l' => if is_space c then drop_spaces l' else l
  | [] => []
  end.

Definition strip_l (l : list ascii) : list ascii := rev (drop_spaces (rev (drop_spaces l))).

(** [s.strip()] and [s.upper()]. *)
Definition py_strip (s : string) : string := string_of_list_ascii (strip_l (list_ascii_of_string s)).
Definition py_upper (s : string) : string :=
  string_of_list_ascii (map to_upper_char (list_ascii_of_string s)).


(** [sub in s] for strings. *)
Fixpoint str_contains (sub s : string) : bool :=
  if String.prefix sub s then true
  else match s with
       | EmptyString => false
       | String _ s' => str_contains sub s'
       end.

(** ** CPython [float(str)] *)

(** A run of digits, single underscores allowed between digits:
    returns (value, number of digits, rest). *)
Fixpoint digit_run_aux (acc : Z) (n : nat) (s : list ascii) : Z * nat * list ascii :=
  match s with
  | c :: s' =>
      if is_digit c then digit_run_aux (acc * 10 + digit_val c) (S n) s'
      else if Ascii.eqb c "_"%char then
        match s' with
        | d :: s'' => if is_digit d then digit_run_aux (acc * 10 + digit_val d) (S n) s''
                      else (acc, n, s)
        | [] => (acc, n, s)
        end
      else (acc, n, s)
  | [] => (acc, n, [])
  end.

Definition digit_run (s : list ascii) : option (Z * nat * list ascii) :=
  match s with
  | c :: s' => if is_digit c then Some (digit_run_aux (digit_val c) 1 s') else None
  | [] => None
  end.

(** Mantissa [digits [. [digits]] | . digits]: (integer value, fraction digits, rest). *)
Definition parse_mantissa (s : list ascii) : option (Z * nat * list ascii) :=
  match digit_run s with
  | Some (ip, _, r) =>
      match r with
      | c :: r' =>
          if Ascii.eqb c "."%char then
            match digit_run r' with
            | Some (fp, fn, r'') => Some (ip * 10 ^ Z.of_nat fn + fp, fn, r'')
            | None => Some (ip, O, r')
            end
          else Some (ip, O, r)
      | [] => Some (ip, O, [])
      end
  | None =>
      match s with
      | c :: r' =>
          if Ascii.eqb c "."%char then
            match digit_run r' with
            | Some (fp, fn, r'') => Some (fp, fn, r'')
            | None => None
            end
          else None
      | [] => None
      end
  end.

Definition parse_sign (s : list ascii) : bool * list ascii :=
  match s with
  | c :: s' => if Ascii.eqb c "-"%char then (true, s')
               else if Ascii.eqb c "+"%char then (false, s') else (false, s)
  | [] => (false, [])
  end.

(** Optional exponent; the whole remaining input must be consumed. *)
Definition parse_exponent (s : list ascii) : option Z :=
  match s with
  | [] => Some 0%Z
  | c :: s' =>
      if Ascii.eqb c "e"%char || Ascii.eqb c "E"%char then
        let (neg, s'') := parse_sign s' in
        match digit_run s'' with
        | Some (e, _, []) => Some (if neg then - e else e)%Z
        | _ => None
        end
      else None
  end.

Definition q_of_decimal (m : Z) (e : Z) : Q :=
  if (0 <=? e)%Z then inject_Z (m * 10 ^ e) else Qmake m (Z.to_pos (10 ^ (- e))).

(** Finite decimal value, rounded to infinity beyond the binary64 range. *)
Definition fl_of_decimal (neg : bool) (q : Q) : fl :=
  if Qle_bool (inject_Z float_overflow_bound) q then Inf neg
  else Fin (Qred (if neg then - q else q)%Q).

Definition lower_str (l : list ascii) : string := string_of_list_ascii (map to_lower_char l).

Definition parse_float_body (neg : bool) (s : list ascii) : option fl :=
  let w := lower_str s in
  if String.eqb w "inf" || String.eqb w "infinity" then Some (Inf neg)
  else if String.eqb w "nan" then Some NaN
  else
    match parse_mantissa s with
    | Some (m, fn, r) =>
        match parse_exponent r with
        | Some e => Some (fl_of_decimal neg (q_of_decimal m (e - Z.of_nat fn)))
        | None => None
        end
    | None => None
    end.

Definition parse_float_str (s : string) : option fl :=
  let (neg, body) := parse_sign (strip_l (list_ascii_of_string s)) in
  parse_float_body neg body.

(** CPython [float(v)]. *)
Definition py_float (v : py) : res fl :=
  match v with
  | PBool b => Ok (Fin (if b then 1 else 0)%Q)
  | PInt z => if (float_overflow_bound <=? Z.abs z)%Z then Raise OverflowError
              else Ok (Fin (inject_Z z))
  | PFloat f => Ok f
  | PStr s => match parse_float_str s with Some f => Ok f | None => Raise ValueError end
  | _ => Raise TypeError
  end.

(** CPython [int(f)] for a float [f]: truncation toward zero. *)
Definition py_int_of_float (f : fl) : res Z :=
  match f with
  | Fin q => Ok (Z.quot (Qnum q) (Zpos (Qden q)))
  | Inf _ => Raise OverflowError
  | NaN => Raise ValueError
  end.

(** sensor.py [_to_float]: [except (TypeError, ValueError): return None]. *)
Definition _to_float (v : py) : res (option fl) :=
  match v with
  | PNone => Ok None
  | _ =>
      match py_float v with
      | Ok f => Ok (Some f)
      | Raise TypeError | Raise ValueError => Ok None
      | Raise e => Raise e
      end
  end.

(** sensor.py [_to_int]: [int(float(val))], same handler. *)
Definition _to_int (v : py) : res (option Z) :=
  match v with
  | PNone => Ok None
  | _ =>
      match (let* f := py_float v in py_int_of_float f) with
      | Ok z => Ok (Some z)
      | Raise TypeError | Raise ValueError => Ok None
      | Raise e => Raise e
      end
  end.

(** ** Ceiling (sensor.py [_ceil_ft_from_layers], [_parse_ceiling_ft]) *)

(** [cover in ("BKN", "OVC", "VV")] *)
Definition is_ceiling_cover (cover : py) : bool :=
  match cover with
  | PStr s => String.eqb s "BKN" || String.eqb s "OVC" || String.eqb s "VV"
  | _ => false
  end.

(** The loop shared by both functions: the list [ceilings]. *)
Fixpoint collect_ceilings (layers : list py) : res (list fl) :=
  match layers with
  | [] => Ok []
  | layer :: rest =>
      let* cover := py_get layer "cover" in
      let* bv := py_get layer "base_ft_agl" in
      let* base := _to_float bv in
      let* cs := collect_ceilings rest in
      Ok (match base with
          | Some b => if is_ceiling_cover cover then b :: cs else cs
          | None => cs
          end)
  end.

(** Python [min] over a non-empty list: keep the current item unless
    [item < current]. *)
Fixpoint py_min_from (acc : fl) (l : list fl) : fl :=
  match l with
  | [] => acc
  | x :: r => py_min_from (if fl_lt x acc then x else acc) r
  end.

Definition _ceil_ft_from_layers (metar : dict) : res py :=
  let layers := dict_get metar "clouds" in
  if negb (truthy layers) then Ok (PStr "Clear") else
  let* ls := py_iter layers in
  let* ceilings := collect_ceilings ls in
  Ok (match ceilings with
      | [] => PStr "Clear"
      | c :: cs => PFloat (py_min_from c cs)
      end).

Definition _parse_ceiling_ft (metar : dict) : res py :=
  let layers := dict_get metar "clouds" in
  if negb (truthy layers) then Ok (PInt 0) else
  let* ls := py_iter layers in
  let* ceilings := collect_ceilings ls in
  Ok (match ceilings with
      | [] => PInt 0
      | c :: cs => PFloat (py_min_from c cs)
      end).

(** ** Flight category (sensor.py [_flight_category_from_metar]) *)

Definition VIS_SM_KEYS : list string := ["visib"; "vis"; "visibility"; "visSm"].
Definition VIS_M_KEYS : list string := ["visibilityMeters"; "visMeters"; "vis_m"].
Definition METERS_PER_MILE : fl := Fin (1609344 # 1000).

(** Python [x < q] for an int or float [x] against a numeric literal. *)
Definition py_lt_num (x : py) (q : Q) : res bool :=
  match x with
  | PInt z => Ok (Qlt_bool (inject_Z z) q)
  | PBool b => Ok (Qlt_bool (if b then 1 else 0)%Q q)
  | PFloat f => Ok (fl_lt f (Fin q))
  | _ => Raise TypeError
  end.

Definition flight_category_compute (metar : dict) : res (option string) :=
  let* ceiling := _parse_ceiling_ft metar in
  let* vis_sm0 := _to_float (_first_present metar VIS_SM_KEYS) in
  let* vis_m := _to_float (_first_present metar VIS_M_KEYS) in
  let* vis_sm :=
    match vis_sm0, vis_m with
    | None, Some vm => let* v := fl_div vm METERS_PER_MILE in Ok (Some v)
    | _, _ => Ok vis_sm0
    end in
  if is_none ceiling && negb (match vis_sm with Some _ => true | None => false end)
  then Ok None else
  let ceiling_eff := if is_none ceiling then PInt 99999 else ceiling in
  let vis_eff := match vis_sm with Some v => v | None => Fin 99 end in
  let* c500 := py_lt_num ceiling_eff 500 in
  if c500 || fl_lt vis_eff (Fin 1) then Ok (Some "LIFR") else
  let* c1000 := py_lt_num ceiling_eff 1000 in
  if c1000 || fl_lt vis_eff (Fin 3) then Ok (Some "IFR") else
  let* c3000 := py_lt_num ceiling_eff 3000 in
  if c3000 || fl_lt vis_eff (Fin 5) then Ok (Some "MVFR") else
  Ok (Some "VFR").

Definition FLTCAT_KEYS : list string := ["fltCat"; "flightCategory"; "fltcat"].

Definition _flight_category_from_metar (metar : dict) : res (option string) :=
  match _first_present metar FLTCAT_KEYS with
  | PStr s => if negb (String.eqb (py_strip s) "") then Ok (Some (py_upper (py_strip s)))
              else flight_category_compute metar
  | _ => flight_category_compute metar
  end.

(** ** Altimeter (sensor.py [_altimeter_to_inhg], [_altim_inhg]) *)

Definition ALTIM_HPA_PER_INHG : fl := Fin (338638866667 # 10000000000).

(** [\b<letter>(\d{4})\b] tried at one position; [prev] is the character
    before it.  The letter is a word character, so the leading [\b] needs a
    non-word character (or the start) before it. *)
Definition token4_at (letter : ascii) (prev : option ascii) (s : list ascii) : option Z :=
  match s with
  | l :: d1 :: d2 :: d3 :: d4 :: rest =>
      if Ascii.eqb l letter
         && match prev with Some p => negb (is_word p) | None => true end
         && is_digit d1 && is_digit d2 && is_digit d3 && is_digit d4
         && match rest with c :: _ => negb (is_word c) | [] => true end
      then Some (((digit_val d1 * 10 + digit_val d2) * 10 + digit_val d3) * 10 + digit_val d4)
      else None
  | _ => None
  end.

(** [re.search(r"\b<letter>(\d{4})\b", s)], returning [int(m.group(1))]. *)
Fixpoint search_token4 (letter : ascii) (prev : option ascii) (s : list ascii) : option Z :=
  match s with
  | [] => None
  | c :: s' =>
      match token4_at letter prev s with
      | Some n => Some n
      | None => search_token4 letter (Some c) s'
      end
  end.

(** Python [round(x, 2)] on a float. *)
Definition py_round2 (f : fl) : fl :=
  match f with
  | Fin q => Fin (Qred (inject_Z (Qround_half_even (q * 100)%Q) / 100)%Q)
  | _ => f
  end.

(** The numeric tail: [if f > 80: return round(f / ALTIM_HPA_PER_INHG, 2)]. *)
Definition altimeter_numeric (f : fl) : res (option fl) :=
  if fl_lt (Fin 80) f then
    let* r := fl_div f ALTIM_HPA_PER_INHG in Ok (Some (py_round2 r))
  else Ok (Some (py_round2 f)).

Definition _altimeter_to_inhg (val : py) : res (option fl) :=
  match val with
  | PNone => Ok None
  | PStr s0 =>
      let s := py_upper (py_strip s0) in
      match search_token4 "A"%char None (list_ascii_of_string s) with
      | Some n => let* r := fl_div (Fin (inject_Z n)) (Fin 100) in Ok (Some (py_round2 r))
      | None =>
          match search_token4 "Q"%char None (list_ascii_of_string s) with
          | Some n => let* r := fl_div (Fin (inject_Z n)) ALTIM_HPA_PER_INHG in
                      Ok (Some (py_round2 r))
          | None =>
              match py_float (PStr s) with
              | Ok v =>
                  let* f := _to_float (PFloat v) in
                  match f with
                  | None => Ok None
                  | Some f => altimeter_numeric f
                  end
              | Raise ValueError => Ok None
              | Raise e => Raise e
              end
          end
      end
  | _ =>
      let* f := _to_float val in
      match f with
      | None => Ok None
      | Some f => altimeter_numeric f
      end
  end.

Definition ALTIM_KEYS : list string := ["altim"; "altimHg"; "altimeter"; "altim_inhg"; "qnh"; "QNH"].

Definition _altim_inhg (metar : dict) : res (option fl) :=
  _altimeter_to_inhg (_first_present metar ALTIM_KEYS).

Definition TEMP_KEYS : list string := ["temp"; "tempC"; "temperature"; "tmpc"].

Definition _temp_c (metar : dict) : res (option fl) :=
  _to_float (_first_present metar TEMP_KEYS).

(** ** Visibility (sensor.py [_VIS_RE], [_parse_vis_from_raw_sm], [_visibility_sm]) *)

Fixpoint span (p : ascii -> bool) (s : list ascii) : list ascii * list ascii :=
  match s with
  | c :: s' => if p c then let (a, b) := span p s' in (c :: a, b) else ([], s)
  | [] => ([], [])
  end.

Definition nonempty {A : Type} (l : list A) : bool :=
  match l with [] => false | _ => true end.

(** [SM\b] *)
Definition sm_end (s : list ascii) : bool :=
  match s with
  | c1 :: c2 :: rest =>
      Ascii.eqb c1 "S"%char && Ascii.eqb c2 "M"%char
      && match rest with c :: _ => negb (is_word c) | [] => true end
  | _ => false
  end.

(** Groups 2..6 of [_VIS_RE] (group 1, the [P], is not used by the code). *)
Record vis_groups : Type := {
  g_whole : option string;
  g_num1 : option string;
  g_den1 : option string;
  g_num2 : option string;
  g_den2 : option string
}.

Definition str_of (l : list ascii) : string := string_of_list_ascii l.

(** First alternative [(P)?(\d+)(?:\s+(\d+)/(\d+))?SM\b] at one position.
    Each [\d+] and [\s+] is followed by a character it cannot match, so
    backtracking into them never helps: the greedy spans are the only
    candidates; the optional group is tried first, then skipped. *)
Definition vis_alt1 (s : list ascii) : option vis_groups :=
  let s1 := match s with
            | c :: s' => if Ascii.eqb c "P"%char then s' else s
            | [] => []
            end in
  let (w, s2) := span is_digit s1 in
  if negb (nonempty w) then None else
  let with_frac :=
    let (ws, s3) := span is_space s2 in
    if negb (nonempty ws) then None else
    let (n, s4) := span is_digit s3 in
    if negb (nonempty n) then None else
    match s4 with
    | c :: s5 =>
        if Ascii.eqb c "/"%char then
          let (d, s6) := span is_digit s5 in
          if nonempty d && sm_end s6
          then Some {| g_whole := Some (str_of w); g_num1 := Some (str_of n);
                       g_den1 := Some (str_of d); g_num2 := None; g_den2 := None |}
          else None
        else None
    | [] => None
    end in
  match with_frac with
  | Some g => Some g
  | None =>
      if sm_end s2
      then Some {| g_whole := Some (str_of w); g_num1 := None; g_den1 := None;
                   g_num2 := None; g_den2 := None |}
      else None
  end.

(** Second alternative [(\d+)/(\d+)SM\b]. *)
Definition vis_alt2 (s : list ascii) : option vis_groups :=
  let (n, s1) := span is_digit s in
  if negb (nonempty n) then None else
  match s1 with
  | c :: s2 =>
      if Ascii.eqb c "/"%char then
        let (d, s3) := span is_digit s2 in
        if nonempty d && sm_end s3
        then Some {| g_whole := None; g_num1 := None; g_den1 := None;
                     g_num2 := Some (str_of n); g_den2 := Some (str_of d) |}
        else None
      else None
  | [] => None
  end.

(** [\b] between [prev] and [c]. *)
Definition boundary (prev : option ascii) (c : ascii) : bool :=
  let wp := match prev with Some p => is_word p | None => false end in
  xorb wp (is_word c).

(** [_VIS_RE.search(raw)]: leftmost position, alternatives in order. *)
Fixpoint vis_search (prev : option ascii) (s : list ascii) : option vis_groups :=
  match s with
  | [] => None
  | c :: s' =>
      let here :=
        if boundary prev c then
          match vis_alt1 s with Some g => Some g | None => vis_alt2 s end
        else None in
      match here with
      | Some g => Some g
      | None => vis_search (Some c) s'
      end
  end.

Definition CAVOK_VIS : fl := Fin (Qred (62 # 10)).

(** [float(num) / float(den)] *)
Definition frac_value (num den : string) : res fl :=
  let* a := py_float (PStr num) in
  let* b := py_float (PStr den) in
  fl_div a b.

Definition _parse_vis_from_raw_sm (raw : string) : res (option fl) :=
  if String.eqb raw "" then Ok None else
  match vis_search None (list_ascii_of_string raw) with
  | None => if str_contains "CAVOK" raw then Ok (Some CAVOK_VIS) else Ok None
  | Some g =>
      let* vis := match g_whole g with
                  | Some w => py_float (PStr w)
                  | None => Ok (Fin 0)
                  end in
      match g_num1 g, g_den1 g, g_num2 g, g_den2 g with
      | Some n1, Some d1, _, _ => let* q := frac_value n1 d1 in Ok (Some (fl_add vis q))
      | _, _, Some n2, Some d2 => let* q := frac_value n2 d2 in Ok (Some (fl_add vis q))
      | _, _, _, _ => Ok (Some vis)
      end
  end.

Definition RAW_METAR_KEYS : list string := ["rawOb"; "rawText"; "text"; "metar"].

Definition _visibility_sm (metar : dict) : res (option fl) :=
  let* vis_sm := _to_float (_first_present metar VIS_SM_KEYS) in
  match vis_sm with
  | Some v => Ok (Some v)
  | None =>
      let* vis_m := _to_float (_first_present metar VIS_M_KEYS) in
      match vis_m with
      | Some vm => let* v := fl_div vm METERS_PER_MILE in Ok (Some v)
      | None =>
          match _first_present metar RAW_METAR_KEYS with
          | PStr raw => _parse_vis_from_raw_sm raw
          | _ => Ok None
          end
      end
  end.

(** ** Snapshot published by the coordinator and read by the sensors *)

(** The coordinator's [data]: [{"icaos": [...], "metar": {...}, "taf": {...}}]. *)
Record snapshot : Type := {
  icaos : list string;
  metar : list (string * dict);
  taf : list (string * dict)
}.

Fixpoint assoc {V : Type} (l : list (string * V)) (k : string) : option V :=
  match l with
  | [] => None
  | (k', v) :: l' => if String.eqb k k' then Some v else assoc l' k
  end.

(** sensor.py [_metar_item] *)
Definition _metar_item (data : snapshot) (icao : string) : option dict :=
  assoc (metar data) icao.

(** ** Density altitude (sensor.py, second block of definitions) *)

Definition FIELD_ELEV_FT : list (string * Z) := [("KCLT", 748); ("KINT", 969); ("KRUQ", 772)].

Definition _pressure_altitude_ft (field_elev_ft altimeter_inhg : fl) : fl :=
  fl_add field_elev_ft (fl_mul (fl_sub (Fin (2992 # 100)) altimeter_inhg) (Fin 1000)).

Definition _isa_temp_c_at_alt_ft (alt_ft : fl) : res fl :=
  let* k := fl_div alt_ft (Fin 1000) in
  Ok (fl_sub (Fin 15) (fl_mul (Fin 2) k)).

Definition _density_altitude_ft (field_elev_ft altimeter_inhg oat_c : fl) : res fl :=
  let pa := _pressure_altitude_ft field_elev_ft altimeter_inhg in
  let* isa := _isa_temp_c_at_alt_ft pa in
  Ok (fl_add pa (fl_mul (Fin 120) (fl_sub oat_c isa))).

(** Python [round(x)] on a float: nearest integer, ties to even. *)
Definition py_round_int (f : fl) : res Z :=
  match f with
  | Fin q => Ok (Qround_half_even q)
  | Inf _ => Raise OverflowError
  | NaN => Raise ValueError
  end.

Definition _density_altitude_station (data : snapshot) (icao : string) : res (option Z) :=
  let metar := match _metar_item data icao with Some m => m | None => [] end in
  match metar with
  | [] => Ok None
  | _ =>
      match assoc FIELD_ELEV_FT icao with
      | None => Ok None
      | Some elev_ft =>
          let* alt_inhg := _altim_inhg metar in
          let* temp_c := _temp_c metar in
          match alt_inhg, temp_c with
          | Some a, Some t =>
              let* e := py_float (PInt elev_ft) in
              let* da_ft := _density_altitude_ft e a t in
              let* r := py_round_int da_ft in
              Ok (Some r)
          | _, _ => Ok None
          end
      end
  end.

(** ** Weather fetch (coordinator.py [_fetch]) *)

Definition Z_to_string (z : Z) : string := NilEmpty.string_of_int (Z.to_int z).

(** What [session.get] yields for one request: the status, the body text
    and the outcome of [await resp.json(content_type=None)]. *)
Record http_response : Type := {
  status : Z;
  body_text : string;
  body_json : res py
}.

Fixpoint first_list_under (kv : dict) (keys : list string) : option (list py) :=
  match keys with
  | [] => None
  | k :: ks =>
      match dict_get kv k with
      | PList l => Some l
      | _ => first_list_under kv ks
      end
  end.

(** coordinator.py [_fetch], a module-level function (not a method of the
    coordinator class).  The statements after its final [return []] (lines
    65-86: the [gather] of the two fetches and the metar/taf dict
    comprehensions) can never run and have no counterpart here. *)
Definition _fetch (endpoint : string) (resp : http_response) : res (list py) :=
  if (status resp =? 204)%Z then Ok [] else
  if negb (status resp =? 200)%Z then
    Raise (UpdateFailed (endpoint ++ " HTTP " ++ Z_to_string (status resp) ++ ": "
                         ++ substring 0 200 (body_text resp)))
  else
    let* payload := body_json resp in
    match payload with
    | PList l => Ok l
    | PDict kv =>
        match first_list_under kv ["data"; "results"; endpoint] with
        | Some l => Ok l
        | None => Ok []
        end
    | _ => Ok []
    end.

(** ** Dict insertion *)

(** Dict insertion: a repeated key keeps its place and takes the new value. *)
Fixpoint assoc_set {V : Type} (k : string) (v : V) (l : list (string * V)) : list (string * V) :=
  match l with
  | [] => [(k, v)]
  | (k', v') :: l' => if String.eqb k k' then (k, v) :: l' else (k', v') :: assoc_set k v l'
  end.

Definition exn_str (e : exn) : string :=
  match e with
  | RuntimeError m | UpdateFailed m => m
  | _ => ""
  end.

(** ** NOTAM fetch (notams.py) *)

Record NotamApiConfig : Type := {
  base_url : string;
  api_key : option string;
  timeout_s : Z;
  page_size : Z
}.

Fixpoint dicts_only (l : list py) : list dict :=
  match l with
  | [] => []
  | PDict kv :: l' => kv :: dicts_only l'
  | _ :: l' => dicts_only l'
  end.

Definition _extract_list (payload : py) : res (list dict) :=
  match payload with
  | PList l => Ok (dicts_only l)
  | PDict kv =>
      match first_list_under kv ["notams"; "items"; "data"; "results"] with
      | Some l => Ok (dicts_only l)
      | None => Raise ValueError
      end
  | _ => Raise ValueError
  end.

(** The outcome of the request block: [session.get] raised [e], or a
    response arrived with a status and the outcome of [resp.json()]. *)
Inductive notam_transport : Type :=
| TRaises (e : exn)
| TResponse (status : Z) (json : res py).

Definition fetch_notams_for_icao (icao0 : string) (cfg : NotamApiConfig)
    (t : notam_transport) : res (list dict) :=
  let icao := py_upper (py_strip icao0) in
  if negb (Nat.eqb (String.length icao) 4) then Raise ValueError else
  let payload :=
    match t with
    | TRaises e => Raise e
    | TResponse st j => if (400 <=? st)%Z then Raise (ClientResponseError st) else j
    end in
  match payload with
  | Ok p => _extract_list p
  | Raise TimeoutError =>
      Raise (RuntimeError ("NOTAM request timed out for " ++ icao
                           ++ " (base_url=" ++ base_url cfg ++ ")"))
  | Raise (ClientResponseError st) =>
      Raise (RuntimeError ("NOTAM request failed for " ++ icao ++ ": HTTP " ++ Z_to_string st
                           ++ " (base_url=" ++ base_url cfg ++ ")"))
  | Raise e =>
      Raise (RuntimeError ("NOTAM request failed for " ++ icao ++ " (base_url="
                           ++ base_url cfg ++ "): " ++ exn_str e))
  end.

(** * Notions of the specification

    Definitions below follow the wording of the spec; the theorems compare
    them with the embedded code above. *)

(** The cloud layers of a METAR record ([clouds], a list). *)
Definition clouds_layers (m : dict) : list py :=
  match dict_get m "clouds" with
  | PList l => l
  | _ => []
  end.

(** The spec's CloudLayer view: the base altitudes of the layers whose cover
    is BKN, OVC or VV and which carry a (numeric) base. *)
Fixpoint ceiling_layer_bases (layers : list py) : list fl :=
  match layers with
  | [] => []
  | PDict kv :: rest =>
      match _to_float (dict_get kv "base_ft_agl") with
      | Ok (Some b) =>
          if is_ceiling_cover (dict_get kv "cover")
          then b :: ceiling_layer_bases rest else ceiling_layer_bases rest
      | _ => ceiling_layer_bases rest
      end
  | _ :: rest => ceiling_layer_bases rest
  end.

Definition not_nan (f : fl) : bool :=
  match f with NaN => false | _ => true end.

(** [a <= b] on floats. *)
Definition fl_le (a b : fl) : bool := negb (fl_lt b a).

(** A layer as the data model has it: an object whose base is absent or a
    number (not NaN), decodable without an exception. *)
Definition layer_well_formed (layer : py) : bool :=
  match layer with
  | PDict kv =>
      match _to_float (dict_get kv "base_ft_agl") with
      | Ok (Some b) => not_nan b
      | Ok None => true
      | Raise _ => false
      end
  | _ => false
  end.

(** [clouds] is absent, [None], or a list of well-formed layers. *)
Definition clouds_well_formed (m : dict) : bool :=
  match dict_get m "clouds" with
  | PNone => true
  | PList l => forallb layer_well_formed l
  | _ => false
  end.






Definition four_digit_value (d1 d2 d3 d4 : ascii) : Z :=
  ((digit_val d1 * 10 + digit_val d2) * 10 + digit_val d3) * 10 + digit_val d4.




(** * Further code of the integration *)

(** ** sensor.py: the remaining field readers *)

(** sensor.py [_taf_item] *)
Definition _taf_item (data : snapshot) (icao : string) : option dict :=
  assoc (taf data) icao.

Definition WIND_DIR_KEYS : list string := ["wdir"; "windDir"; "wdirDegrees"; "wind_dir_degrees"].
Definition WIND_SPD_KEYS : list string := ["wspd"; "windSpeed"; "wspdKt"; "wind_speed_kt"].
Definition WIND_GUST_KEYS : list string := ["wgst"; "windGust"; "wgstKt"; "wind_gust_kt"].
Definition DEWP_KEYS : list string := ["dewp"; "dewpoint"; "dewpC"; "dwpc"].
Definition RAW_TAF_KEYS : list string := ["rawTAF"; "rawText"; "text"; "taf"].

Definition _wind_dir_deg (metar : dict) : res (option Z) :=
  _to_int (_first_present metar WIND_DIR_KEYS).
Definition _wind_spd_kt (metar : dict) : res (option Z) :=
  _to_int (_first_present metar WIND_SPD_KEYS).
Definition _wind_gust_kt (metar : dict) : res (option Z) :=
  _to_int (_first_present metar WIND_GUST_KEYS).
Definition _dewpoint_c (metar : dict) : res (option fl) :=
  _to_float (_first_present metar DEWP_KEYS).

(** [_raw_metar], [_raw_taf]: [if not m: return None]. *)
Definition _raw_metar (data : snapshot) (icao : string) : py :=
  match _metar_item data icao with
  | Some m => if truthy (PDict m) then _first_present m RAW_METAR_KEYS else PNone
  | None => PNone
  end.

Definition _raw_taf (data : snapshot) (icao : string) : py :=
  match _taf_item data icao with
  | Some t => if truthy (PDict t) then _first_present t RAW_TAF_KEYS else PNone
  | None => PNone
  end.

(** Values as the sensor entity receives them. *)
Definition py_of_fl (o : option fl) : py := match o with Some f => PFloat f | None => PNone end.
Definition py_of_Z (o : option Z) : py := match o with Some z => PInt z | None => PNone end.
Definition py_of_str (o : option string) : py := match o with Some s => PStr s | None => PNone end.

Definition res_map {A B : Type} (f : A -> B) (m : res A) : res B :=
  let* a := m in Ok (f a).

(** The wrapper of most value functions:
    [f(_metar_item(d, i) or {}) if _metar_item(d, i) else None]. *)
Definition metar_guard (f : dict -> res py) (d : snapshot) (i : string) : res py :=
  match _metar_item d i with
  | Some m => if truthy (PDict m) then f m else Ok PNone
  | None => Ok PNone
  end.

(** [SensorEntityDescription]: the key and the name; the icon and the unit are
    display metadata and are left out. *)
Record SensorEntityDescription : Type := {
  key : string;
  name : string
}.

Record AeroWeatherSensorSpec : Type := {
  description : SensorEntityDescription;
  value_fn : snapshot -> string -> res py;
  attrs_fn : option (snapshot -> string -> dict)
}.

(** [coordinator.data or {}]: before the first refresh there is no data. *)
Definition empty_data : snapshot := {| icaos := []; metar := []; taf := [] |}.

Section Sensors.

(** Python's [str()] of a JSON value, used by [_wx_string] only. *)
Variable py_str : py -> string.

Definition _wx_string (metar : dict) : option string :=
  let wx := dict_get metar "wx" in
  if negb (truthy wx) then None else
  match wx with
  | PList l => Some (String.concat " " (map py_str (filter truthy l)))
  | _ => Some (py_str wx)
  end.

Definition DESCRIPTIONS : list AeroWeatherSensorSpec := [
  {| description := {| key := "metar_raw"; name := "METAR (raw)" |};
     value_fn := fun d i => Ok (_raw_metar d i);
     attrs_fn := Some (fun d i => match _metar_item d i with Some m => m | None => [] end) |};
  {| description := {| key := "taf_raw"; name := "TAF (raw)" |};
     value_fn := fun d i => Ok (_raw_taf d i);
     attrs_fn := Some (fun d i => match _taf_item d i with Some t => t | None => [] end) |};
  {| description := {| key := "flight_category"; name := "Flight category" |};
     value_fn := metar_guard (fun m => res_map py_of_str (_flight_category_from_metar m));
     attrs_fn := None |};
  {| description := {| key := "wind_dir"; name := "Wind direction" |};
     value_fn := metar_guard (fun m => res_map py_of_Z (_wind_dir_deg m));
     attrs_fn := None |};
  {| description := {| key := "wind_speed"; name := "Wind speed" |};
     value_fn := metar_guard (fun m => res_map py_of_Z (_wind_spd_kt m));
     attrs_fn := None |};
  {| description := {| key := "wind_gust"; name := "Wind gust" |};
     value_fn := metar_guard (fun m => res_map py_of_Z (_wind_gust_kt m));
     attrs_fn := None |};
  {| description := {| key := "visibility"; name := "Visibility" |};
     value_fn := metar_guard (fun m => res_map py_of_fl (_visibility_sm m));
     attrs_fn := None |};
  {| description := {| key := "ceiling"; name := "Ceiling" |};
     value_fn := metar_guard _ceil_ft_from_layers;
     attrs_fn := None |};
  {| description := {| key := "altimeter"; name := "Altimeter" |};
     value_fn := metar_guard (fun m => res_map py_of_fl (_altim_inhg m));
     attrs_fn := None |};
  {| description := {| key := "temp"; name := "Temperature" |};
     value_fn := metar_guard (fun m => res_map py_of_fl (_temp_c m));
     attrs_fn := None |};
  {| description := {| key := "density_altitude"; name := "Density Altitude" |};
     value_fn := fun d i => res_map py_of_Z (_density_altitude_station d i);
     attrs_fn := None |};
  {| description := {| key := "dewpoint"; name := "Dewpoint" |};
     value_fn := metar_guard (fun m => res_map py_of_fl (_dewpoint_c m));
     attrs_fn := None |};
  {| description := {| key := "wx"; name := "Weather" |};
     value_fn := metar_guard (fun m => Ok (py_of_str (_wx_string m)));
     attrs_fn := None |}
].

(** [AeroWeatherSensor.native_value]: [value_fn(coordinator.data or {}, icao)]. *)
Definition native_value (data : option snapshot) (icao : string) (spec : AeroWeatherSensorSpec) : res py :=
  value_fn spec (match data with Some d => d | None => empty_data end) icao.

(** [async_setup_entry]: one entity per station and description. *)
Definition async_setup_entry (icaos0 : list string) : list (string * AeroWeatherSensorSpec) :=
  flat_map (fun icao => map (fun spec => (icao, spec)) DESCRIPTIONS) icaos0.

End Sensors.

(** [AeroWeatherSensor.__init__]: [_attr_unique_id] and [_attr_name]. *)
Definition sensor_unique_id (entry_id icao : string) (spec : AeroWeatherSensorSpec) : string :=
  entry_id ++ "_" ++ icao ++ "_" ++ key (description spec).

Definition sensor_name (icao : string) (spec : AeroWeatherSensorSpec) : string :=
  icao ++ " " ++ name (description spec).

(** ** config_flow.py *)

(** [s.replace(";", ",")] for one-character strings. *)
Definition replace_char (a b : ascii) (s : string) : string :=
  string_of_list_ascii (map (fun c => if Ascii.eqb c a then b else c) (list_ascii_of_string s)).

(** [s.split(sep)] for a one-character separator: always at least one piece. *)
Fixpoint split_on (sep : ascii) (s : list ascii) : list (list ascii) :=
  match s with
  | [] => [[]]
  | c :: s' =>
      let parts := split_on sep s' in
      if Ascii.eqb c sep then [] :: parts
      else match parts with
           | p :: ps => (c :: p) :: ps
           | [] => [[c]]
           end
  end.

Definition split_str (sep : ascii) (s : string) : list string :=
  map str_of (split_on sep (list_ascii_of_string s)).

(** [[s.strip().upper() for s in raw.replace(";", ",").split(",") if s.strip()]] *)
Definition parse_icao_list (raw : string) : list string :=
  map (fun s => py_upper (py_strip s))
      (filter (fun s => negb (String.eqb (py_strip s) ""))
              (split_str ","%char (replace_char ";"%char ","%char raw))).

Definition icao_char (c : ascii) : bool := is_upper c || is_digit c.

(** [ICAO_RE.match(i)] with [ICAO_RE = ^[A-Z0-9]{4}$]: without MULTILINE,
    [$] also matches before a newline that ends the string. *)
Definition ICAO_RE_match (s : string) : bool :=
  match list_ascii_of_string s with
  | [a; b; c; d] => icao_char a && icao_char b && icao_char c && icao_char d
  | [a; b; c; d; e] =>
      icao_char a && icao_char b && icao_char c && icao_char d && Ascii.eqb e "010"%char
  | _ => false
  end.

(** [not icaos or any(not ICAO_RE.match(i) for i in icaos)] *)
Definition icaos_invalid (icaos0 : list string) : bool :=
  match icaos0 with
  | [] => true
  | _ => existsb (fun i => negb (ICAO_RE_match i)) icaos0
  end.

(** [sorted(set(icaos))]: string order is code point order. *)
Fixpoint insert_sorted (x : string) (l : list string) : list string :=
  match l with
  | [] => [x]
  | y :: l' => if String.leb x y then x :: l else y :: insert_sorted x l'
  end.

Definition sort_strings (l : list string) : list string := fold_right insert_sorted [] l.

Definition sorted_set (l : list string) : list string := sort_strings (nodup string_dec l).

(** CPython [int(str)] in base 10: surrounding whitespace, a sign, digits
    with single underscores between them, at most 4300 digits. *)
Definition py_int_str (s : string) : option Z :=
  let (neg, body) := parse_sign (strip_l (list_ascii_of_string s)) in
  match digit_run body with
  | Some (v, n, []) => if (4300 <? n)%nat then None else Some (if neg then - v else v)
  | _ => None
  end.

(** CPython [int(v)]. *)
Definition py_int (v : py) : res Z :=
  match v with
  | PBool b => Ok (if b then 1 else 0)
  | PInt z => Ok z
  | PFloat f => py_int_of_float f
  | PStr s => match py_int_str s with Some z => Ok z | None => Raise ValueError end
  | _ => Raise TypeError
  end.

(** The outcome of a flow step: an entry created, or the form shown again. *)
Inductive flow_result : Type :=
| CreateEntry (title : string) (data : dict)
| ShowForm (step_id : string) (errors : list (string * string)).

(** A submitted form, as the schema lets it through: the stations text and,
    when given, the scan interval. *)
Record flow_input : Type := {
  input_icaos : string;
  input_scan : option py
}.

Record config_entry : Type := {
  entry_id : string;
  entry_data : dict;
  entry_options : dict
}.

(** [{**d1, **d2}] *)
Definition dict_merge (d1 d2 : dict) : dict :=
  fold_left (fun acc kv => assoc_set (fst kv) (snd kv) acc) (d1 ++ d2) [].

(** [d.get(k, default)] *)
Definition dict_get_default (d : dict) (k : string) (dflt : py) : py :=
  match dict_lookup d k with Some v => v | None => dflt end.

Section ConfigFlow.

(** const.py is not among the sources: the option keys and the default
    interval are parameters. *)
Variables CONF_ICAOS CONF_SCAN_INTERVAL : string.
Variable DEFAULT_SCAN_INTERVAL : py.

Definition entry_data_of (icaos0 : list string) (scan : Z) : dict :=
  [(CONF_ICAOS, PList (map PStr (sorted_set icaos0))); (CONF_SCAN_INTERVAL, PInt scan)].

(** [AeroWeatherConfigFlow.async_step_user] *)
Definition async_step_user (user_input : option flow_input) : res flow_result :=
  match user_input with
  | None => Ok (ShowForm "user" [])
  | Some ui =>
      let icaos0 := parse_icao_list (input_icaos ui) in
      if icaos_invalid icaos0 then Ok (ShowForm "user" [("base", "invalid_icao")]) else
      let* scan := py_int (match input_scan ui with
                           | Some v => v
                           | None => DEFAULT_SCAN_INTERVAL
                           end) in
      Ok (CreateEntry "AeroWeather" (entry_data_of icaos0 scan))
  end.

(** [AeroWeatherOptionsFlow.async_step_init] *)
Definition async_step_init (entry : config_entry) (user_input : option flow_input) : res flow_result :=
  let current := dict_merge (entry_data entry) (entry_options entry) in
  match user_input with
  | None => Ok (ShowForm "init" [])
  | Some ui =>
      let icaos0 := parse_icao_list (input_icaos ui) in
      if icaos_invalid icaos0 then Ok (ShowForm "init" [("base", "invalid_icao")]) else
      let* scan := py_int (match input_scan ui with
                           | Some v => v
                           | None => dict_get_default current CONF_SCAN_INTERVAL DEFAULT_SCAN_INTERVAL
                           end) in
      Ok (CreateEntry "" (entry_data_of icaos0 scan))
  end.

(** ** coordinator.py [AeroWeatherCoordinator.__init__] *)

Record coordinator_state : Type := {
  coord_icaos : py;
  update_interval_s : Z
}.

(** [timedelta(seconds=scan)] needs [|scan // 86400| <= 999999999]. *)
Definition AeroWeatherCoordinator_init (entry : config_entry) : res coordinator_state :=
  let data := dict_merge (entry_data entry) (entry_options entry) in
  let icaos0 := dict_get_default data CONF_ICAOS (PList []) in
  let* scan := py_int (dict_get_default data CONF_SCAN_INTERVAL DEFAULT_SCAN_INTERVAL) in
  if ((scan / 86400 <? -999999999) || (999999999 <? scan / 86400))%Z then Raise OverflowError
  else Ok {| coord_icaos := icaos0; update_interval_s := scan |}.

End ConfigFlow.

(** ** notams.py [fetch_notams_bulk] *)

(** [[i.strip().upper() for i in (icaos or []) if i and i.strip()]] *)
Definition clean_icaos (icaos0 : list string) : list string :=
  map (fun i => py_upper (py_strip i))
      (filter (fun i => negb (String.eqb i "") && negb (String.eqb (py_strip i) "")) icaos0).

(** The tasks of [gather], each doing [results[i] = await fetch(...)].  The
    transport answers per station.  [gather] re-raises the exception of the
    first task to fail; the model takes the first station in list order. *)
Fixpoint gather_notams (cfg : NotamApiConfig) (transport : string -> notam_transport)
    (results : list (string * list dict)) (l : list string) : res (list (string * list dict)) :=
  match l with
  | [] => Ok results
  | i :: l' =>
      let* r := fetch_notams_for_icao i cfg (transport i) in
      gather_notams cfg transport (assoc_set i r results) l'
  end.

Definition fetch_notams_bulk (icaos0 : list string) (cfg : NotamApiConfig)
    (transport : string -> notam_transport) : res (list (string * list dict)) :=
  gather_notams cfg transport [] (clean_icaos icaos0).

(** ** Notions used by the further properties *)

(** String order as [<=] and [<] compare Python strings. *)
Definition str_le (a b : string) : Prop := String.leb a b = true.
Definition str_lt (a b : string) : Prop := String.ltb a b = true.

(** A station code the way [ICAO_RE] describes it: four characters from
    A-Z and 0-9. *)
Definition icao_code (i : string) : Prop :=
  String.length i = 4%nat /\ forallb icao_char (list_ascii_of_string i) = true.

(** [l.startswith(p)] on character lists. *)
Fixpoint lprefix (p l : list ascii) : bool :=
  match p, l with
  | [], _ => true
  | a :: p', b :: l' => Ascii.eqb a b && lprefix p' l'
  | _ :: _, [] => false
  end.

(** The keys of [DESCRIPTIONS], in order. *)
Definition sensor_keys : list string :=
  ["metar_raw"; "taf_raw"; "flight_category"; "wind_dir"; "wind_speed"; "wind_gust";
   "visibility"; "ceiling"; "altimeter"; "temp"; "density_altitude"; "dewpoint"; "wx"].

(** No key ends in an underscore followed by a key. *)
Definition no_key_ends_another (ks : list string) : bool :=
  forallb (fun k1 => forallb (fun k2 =>
    negb (lprefix (rev (list_ascii_of_string k1) ++ ["_"%char]) (rev (list_ascii_of_string k2)))) ks) ks.

(** * Proofs *)

(** ** Floats: the order on non-NaN values *)

Lemma fl_le_Fin (x y : Q) : fl_le (Fin x) (Fin y) = Qle_bool x y.
Proof. unfold fl_le, fl_lt, Qlt_bool. now rewrite negb_involutive. Qed.

Lemma fl_le_refl (a : fl) : not_nan a = true -> fl_le a a = true.
Proof.
  destruct a as [x|[]|]; intro H; try discriminate; try reflexivity.
  rewrite fl_le_Fin. apply Qle_bool_iff, Qle_refl.
Qed.

Lemma fl_lt_le (a b : fl) : fl_lt a b = true -> fl_le a b = true.
Proof.
  destruct a as [x|[]|], b as [y|[]|]; try discriminate; try reflexivity.
  rewrite fl_le_Fin. unfold fl_lt, Qlt_bool. intro H.
  apply negb_true_iff in H. apply Qle_bool_iff.
  apply Qlt_le_weak, Qnot_le_lt. intro Hle. apply Qle_bool_iff in Hle. congruence.
Qed.

Lemma fl_le_trans (a b c : fl) :
  not_nan b = true -> fl_le a b = true -> fl_le b c = true -> fl_le a c = true.
Proof.
  destruct a as [x|[]|], b as [y|[]|], c as [z|[]|]; try discriminate; try reflexivity;
    rewrite ?fl_le_Fin; intros H0 H1 H2; try discriminate.
  apply Qle_bool_iff in H1, H2. apply Qle_bool_iff. eapply Qle_trans; eauto.
Qed.

(** Python's [min] returns an element of the list below every element. *)
Lemma py_min_from_least (l : list fl) (acc : fl) :
  not_nan acc = true -> Forall (fun x => not_nan x = true) l ->
  In (py_min_from acc l) (acc :: l)
  /\ Forall (fun x => fl_le (py_min_from acc l) x = true) (acc :: l).
Proof.
  revert acc. induction l as [|x l IH]; intros acc Hacc Hl; simpl.
  - split; [left; reflexivity | constructor; [now apply fl_le_refl | constructor]].
  - inversion Hl as [|? ? Hx Hl']; subst.
    set (acc' := if fl_lt x acc then x else acc).
    assert (Hacc' : not_nan acc' = true) by (unfold acc'; destruct (fl_lt x acc); auto).
    assert (H1 : fl_le acc' acc = true).
    { unfold acc'; destruct (fl_lt x acc) eqn:E; [now apply fl_lt_le | now apply fl_le_refl]. }
    assert (H2 : fl_le acc' x = true).
    { unfold acc'; destruct (fl_lt x acc) eqn:E; [now apply fl_le_refl | unfold fl_le; now rewrite E]. }
    destruct (IH acc' Hacc' Hl') as [Hin Hall].
    inversion Hall as [|? ? Hm Hall']; subst.
    split.
    + destruct Hin as [Hin|Hin].
      * rewrite <- Hin. unfold acc'. destruct (fl_lt x acc); simpl; auto.
      * simpl; auto.
    + constructor; [eapply (fl_le_trans _ acc'); eauto|].
      constructor; [eapply (fl_le_trans _ acc'); eauto| exact Hall'].
Qed.

(** ** Ceiling *)

Lemma collect_ceilings_well_formed (l : list py) :
  forallb layer_well_formed l = true -> collect_ceilings l = Ok (ceiling_layer_bases l).
Proof.
  induction l as [|layer l IH]; intro H; [reflexivity|].
  simpl in H. apply andb_true_iff in H as [Hlayer Hl].
  destruct layer as [| | | | | |kv]; try discriminate.
  simpl in Hlayer |- *. unfold py_get.
  destruct (_to_float (dict_get kv "base_ft_agl")) as [[b|]|e]; try discriminate;
    simpl; rewrite (IH Hl); simpl; reflexivity.
Qed.

Lemma ceiling_layer_bases_not_nan (l : list py) :
  forallb layer_well_formed l = true ->
  Forall (fun x => not_nan x = true) (ceiling_layer_bases l).
Proof.
  induction l as [|layer l IH]; intro H; simpl; [constructor|].
  simpl in H. apply andb_true_iff in H as [Hlayer Hl].
  destruct layer as [| | | | | |kv]; try discriminate.
  simpl in Hlayer.
  destruct (_to_float (dict_get kv "base_ft_agl")) as [[b|]|e]; try discriminate; auto.
  destruct (is_ceiling_cover (dict_get kv "cover")); auto.
Qed.

(** C2: the ceiling is the lowest base among the BKN/OVC/VV layers; with no
    such layer (no layers, or only FEW/SCT/CLR/SKC layers) it is the
    sentinel "Clear", not the number 0.  Stated for cloud data as the data
    model describes it ([clouds_well_formed]), with the spec's examples. *)
Theorem ceil_ft_from_layers_spec (m : dict) :
  clouds_well_formed m = true ->
  ((ceiling_layer_bases (clouds_layers m) = []
    /\ _ceil_ft_from_layers m = Ok (PStr "Clear"))
   \/ (exists b, In b (ceiling_layer_bases (clouds_layers m))
        /\ Forall (fun x => fl_le b x = true) (ceiling_layer_bases (clouds_layers m))
        /\ _ceil_ft_from_layers m = Ok (PFloat b)))
  /\ _ceil_ft_from_layers [("clouds", PList [])] = Ok (PStr "Clear")
  /\ _ceil_ft_from_layers
       [("clouds", PList [PDict [("cover", PStr "FEW"); ("base_ft_agl", PInt 2000)]])]
     = Ok (PStr "Clear")
  /\ _ceil_ft_from_layers
       [("clouds", PList [PDict [("cover", PStr "BKN"); ("base_ft_agl", PInt 2500)];
                          PDict [("cover", PStr "OVC"); ("base_ft_agl", PInt 1800)]])]
     = Ok (PFloat (Fin 1800)).
Proof.
  intro Hwf. split; [|vm_compute; repeat split].
  unfold clouds_well_formed, clouds_layers, _ceil_ft_from_layers in *.
  destruct (dict_get m "clouds") as [| | | | |l|]; try discriminate.
  - left; split; reflexivity.
  - destruct l as [|layer l'].
    + left; split; reflexivity.
    + simpl truthy; cbv iota beta; simpl negb; cbv iota.
      simpl py_iter; cbv beta iota delta [bind].
      rewrite (collect_ceilings_well_formed _ Hwf).
      pose proof (ceiling_layer_bases_not_nan _ Hwf) as Hnn.
      destruct (ceiling_layer_bases (layer :: l')) as [|b bs] eqn:E.
      * left; split; reflexivity.
      * right. inversion Hnn as [|? ? Hb Hbs]; subst.
        destruct (py_min_from_least bs b Hb Hbs) as [Hin Hall].
        exists (py_min_from b bs); repeat split; assumption.
Qed.



(** C1: the flight category of a record without a category field.  The
    classifier takes its ceiling from [_parse_ceiling_ft], which answers 0
    (not [None]) when there is no ceiling layer: a record with no clouds and
    no visibility is classified "LIFR" instead of being left unclassified,
    and a record with 10 mi visibility and no ceiling is "LIFR" instead of
    "VFR".  The spec's example ceiling 400 ft / visibility 5 mi gives "LIFR". *)
Theorem flight_category_missing_ceiling_is_lifr :
  _flight_category_from_metar [] = Ok (Some "LIFR")
  /\ _flight_category_from_metar [("visib", PInt 10)] = Ok (Some "LIFR")
  /\ _flight_category_from_metar
       [("clouds", PList [PDict [("cover", PStr "OVC"); ("base_ft_agl", PInt 400)]]);
        ("visib", PInt 5)] = Ok (Some "LIFR").
Proof. vm_compute. repeat split. Qed.

(** C10: [_to_float] and [_to_int] catch only [TypeError] and [ValueError];
    the [OverflowError] of [int(float("inf"))] and of [float(10**400)]
    escapes. *)
Theorem to_int_to_float_overflow_escapes :
  _to_int (PStr "inf") = Raise OverflowError
  /\ _to_int (PFloat (Inf false)) = Raise OverflowError
  /\ _to_float (PInt (10 ^ 400)) = Raise OverflowError.
Proof. vm_compute. repeat split. Qed.

(** ** Rounding and characters *)

Lemma Qlt_bool_comp (a a' b b' : Q) : (a == a')%Q -> (b == b')%Q -> Qlt_bool a b = Qlt_bool a' b'.
Proof. intros Ha Hb. unfold Qlt_bool. now rewrite Ha, Hb. Qed.

Lemma Qround_half_even_comp (q q' : Q) : (q == q')%Q -> Qround_half_even q = Qround_half_even q'.
Proof.
  intro H. unfold Qround_half_even.
  assert (Hf : Qfloor q = Qfloor q') by (apply Qfloor_comp; exact H).
  rewrite Hf.
  assert (Hr : (q - inject_Z (Qfloor q') == q' - inject_Z (Qfloor q'))%Q)
    by (apply Qplus_comp; [exact H | reflexivity]).
  rewrite (Qlt_bool_comp _ _ (1 # 2)%Q (1 # 2)%Q Hr (Qeq_refl _)).
  rewrite (Qlt_bool_comp (1 # 2)%Q (1 # 2)%Q _ _ (Qeq_refl _) Hr).
  reflexivity.
Qed.

Lemma Qround_half_even_Z (z : Z) : Qround_half_even (inject_Z z) = z.
Proof.
  unfold Qround_half_even. rewrite Qfloor_Z.
  rewrite (Qlt_bool_comp _ 0%Q (1 # 2)%Q (1 # 2)%Q) by (ring || reflexivity).
  reflexivity.
Qed.

Lemma py_round2_comp (q q' : Q) : (q == q')%Q -> py_round2 (Fin q) = py_round2 (Fin q').
Proof.
  intro H. unfold py_round2.
  rewrite (Qround_half_even_comp (q * 100)%Q (q' * 100)%Q) by (apply Qmult_comp; [exact H | reflexivity]).
  reflexivity.
Qed.

Lemma digit_not_special (c : ascii) :
  is_digit c = true ->
  is_space c = false /\ is_lower c = false /\ is_upper c = false /\ is_word c = true.
Proof.
  intro H. unfold is_word. rewrite H. simpl orb.
  unfold is_digit, is_space, is_lower, is_upper in *.
  apply andb_true_iff in H as [H1 H2]. apply Nat.leb_le in H1, H2.
  repeat split; try reflexivity; apply not_true_iff_false;
    rewrite ?orb_true_iff, ?andb_true_iff, ?Nat.leb_le; lia.
Qed.

Lemma to_upper_char_digit (c : ascii) : is_digit c = true -> to_upper_char c = c.
Proof.
  intro H. destruct (digit_not_special c H) as (_ & L & _). unfold to_upper_char. now rewrite L.
Qed.

(** A token [<letter><dddd>] is left alone by [strip().upper()]. *)
Lemma strip_upper_token (l d1 d2 d3 d4 : ascii) :
  is_space l = false -> to_upper_char l = l ->
  is_digit d1 = true -> is_digit d2 = true -> is_digit d3 = true -> is_digit d4 = true ->
  py_upper (py_strip (String l (String d1 (String d2 (String d3 (String d4 EmptyString))))))
  = String l (String d1 (String d2 (String d3 (String d4 EmptyString)))).
Proof.
  intros Hl Hu H1 H2 H3 H4.
  destruct (digit_not_special d4 H4) as (S4 & _).
  unfold py_upper, py_strip, strip_l. simpl. rewrite Hl. simpl. rewrite S4. simpl.
  rewrite Hu, !to_upper_char_digit by assumption. reflexivity.
Qed.

Lemma search_token4_token (l d1 d2 d3 d4 : ascii) :
  is_digit d1 = true -> is_digit d2 = true -> is_digit d3 = true -> is_digit d4 = true ->
  search_token4 l None [l; d1; d2; d3; d4] = Some (four_digit_value d1 d2 d3 d4).
Proof.
  intros H1 H2 H3 H4. simpl. rewrite Ascii.eqb_refl, H1, H2, H3, H4. reflexivity.
Qed.

Lemma py_round2_hundredths (n : Z) :
  py_round2 (Fin (Qred (inject_Z n / 100))) = Fin (Qred (inject_Z n / 100)).
Proof.
  unfold py_round2.
  rewrite (Qround_half_even_comp _ (inject_Z n)).
  - rewrite Qround_half_even_Z. reflexivity.
  - rewrite Qred_correct. field.
Qed.

Lemma fl_div_Fin (x y : Q) : q_zero y = false -> fl_div (Fin x) (Fin y) = Ok (Fin (Qred (x / y))).
Proof. intro H. unfold fl_div. now rewrite H. Qed.

Lemma altimeter_numeric_Fin (q : Q) :
  altimeter_numeric (Fin q)
  = if Qlt_bool 80 q
    then Ok (Some (py_round2 (Fin (q / (338638866667 # 10000000000)))))
    else Ok (Some (py_round2 (Fin q))).
Proof.
  unfold altimeter_numeric, ALTIM_HPA_PER_INHG. simpl fl_lt.
  destruct (Qlt_bool 80 q); [|reflexivity].
  rewrite fl_div_Fin by reflexivity. cbv beta iota delta [bind].
  now rewrite (py_round2_comp _ (q / (338638866667 # 10000000000))) by apply Qred_correct.
Qed.

(** C5 (as amended): the altimeter decoder.  A token [A<dddd>] gives the four
    digits divided by 100; a token [Q<dddd>] gives the digits divided by
    33.8638866667, rounded to 2 decimals; a bare number n gives
    round(n / 33.8638866667, 2) when n > 80 and round(n, 2) otherwise.
    "A3011" gives 30.11 and "Q1013" gives 29.91 (1013 / 33.8638866667 =
    29.9139...). *)
Theorem altimeter_to_inhg_decoding (d1 d2 d3 d4 : ascii) :
  is_digit d1 = true -> is_digit d2 = true -> is_digit d3 = true -> is_digit d4 = true ->
  _altimeter_to_inhg (PStr (String "A" (String d1 (String d2 (String d3 (String d4 EmptyString))))))
  = Ok (Some (Fin (Qred (inject_Z (four_digit_value d1 d2 d3 d4) / 100))))
  /\ _altimeter_to_inhg (PStr (String "Q" (String d1 (String d2 (String d3 (String d4 EmptyString))))))
     = Ok (Some (py_round2 (Fin (inject_Z (four_digit_value d1 d2 d3 d4)
                                 / (338638866667 # 10000000000)))))
  /\ (forall q : Q,
        _altimeter_to_inhg (PFloat (Fin q))
        = if Qlt_bool 80 q
          then Ok (Some (py_round2 (Fin (q / (338638866667 # 10000000000)))))
          else Ok (Some (py_round2 (Fin q))))
  /\ (forall z : Z, Z.abs z < float_overflow_bound ->
        _altimeter_to_inhg (PInt z)
        = if Qlt_bool 80 (inject_Z z)
          then Ok (Some (py_round2 (Fin (inject_Z z / (338638866667 # 10000000000)))))
          else Ok (Some (py_round2 (Fin (inject_Z z)))))
  /\ _altimeter_to_inhg (PStr "A3011") = Ok (Some (Fin (3011 # 100)))
  /\ _altimeter_to_inhg (PStr "Q1013") = Ok (Some (Fin (2991 # 100))).
Proof.
  intros H1 H2 H3 H4.
  split; [|split; [|split; [|split; [|split]]]].
  - unfold _altimeter_to_inhg.
    rewrite strip_upper_token by (reflexivity || assumption).
    cbn [list_ascii_of_string].
    rewrite search_token4_token by assumption.
    rewrite fl_div_Fin by reflexivity. cbv beta iota delta [bind].
    now rewrite py_round2_hundredths.
  - unfold _altimeter_to_inhg.
    rewrite strip_upper_token by (reflexivity || assumption).
    cbn [list_ascii_of_string].
    change (search_token4 "A"%char None ["Q"%char; d1; d2; d3; d4]) with (@None Z).
    cbv iota.
    rewrite search_token4_token by assumption.
    unfold ALTIM_HPA_PER_INHG.
    rewrite fl_div_Fin by reflexivity. cbv beta iota delta [bind].
    now rewrite (py_round2_comp (Qred _) (inject_Z (four_digit_value d1 d2 d3 d4)
                                          / (338638866667 # 10000000000)))
      by apply Qred_correct.
  - intro q. apply altimeter_numeric_Fin.
  - intros z Hz. unfold _altimeter_to_inhg, _to_float, py_float.
    destruct (Z.leb_spec float_overflow_bound (Z.abs z)) as [Hle|_]; [lia|].
    cbv beta iota delta [bind]. apply altimeter_numeric_Fin.
  - vm_compute. reflexivity.
  - vm_compute. reflexivity.
Qed.

(** C5: the spec's example value for "Q1013" (29.92) is not what the decoder
    returns. *)
Lemma altimeter_Q1013_not_2992 :
  _altimeter_to_inhg (PStr "Q1013") <> Ok (Some (Fin (2992 # 100))).
Proof. vm_compute. congruence. Qed.

(** ** Density altitude *)











(** ** Visibility: the regular expression and [float()] of its groups *)







(** ** [float()] of a string of digits *)

Lemma digit_no_space (c : ascii) : is_digit c = true -> is_space c = false.
Proof.
  unfold is_digit, is_space. intro H. apply andb_prop in H as [H1 _].
  apply Nat.leb_le in H1.
  rewrite (proj2 (Nat.leb_gt (code c) 13)) by lia.
  rewrite (proj2 (Nat.leb_gt (code c) 32)) by lia.
  now rewrite !andb_false_r.
Qed.




Lemma forallb_rev {A : Type} (p : A -> bool) (l : list A) : forallb p (rev l) = forallb p l.
Proof.
  induction l as [|a l IH]; [reflexivity|]. simpl. rewrite forallb_app, IH. simpl.
  now rewrite andb_true_r, andb_comm.
Qed.














(** ** Dict insertion *)

Lemma assoc_set_keys {V : Type} (k k' : string) (v : V) (l : list (string * V)) :
  In k (map fst (assoc_set k' v l)) -> k = k' \/ In k (map fst l).
Proof.
  induction l as [|[k0 v0] l IH]; simpl.
  - intros [H|[]]. now left.
  - destruct (String.eqb k' k0) eqn:E; simpl.
    + apply String.eqb_eq in E. subst. intros [H|H]; [now left | right; now right].
    + intros [H|H]; [right; now left|]. destruct (IH H); [now left | right; now right].
Qed.

(** ** Weather endpoint response normalization *)

Lemma first_list_under_some (kv : dict) (keys : list string) (l : list py) :
  first_list_under kv keys = Some l -> exists k, In k keys /\ dict_get kv k = PList l.
Proof.
  induction keys as [|k ks IH]; simpl; [discriminate|].
  destruct (dict_get kv k) eqn:E; try (intro H; destruct (IH H) as (k' & Hk' & Hl);
                                       exists k'; split; [now right | exact Hl]).
  intro H. injection H as <-. exists k. split; [now left | exact E].
Qed.

Lemma first_list_under_none (kv : dict) (keys : list string) :
  (forall k l, In k keys -> dict_get kv k <> PList l) -> first_list_under kv keys = None.
Proof.
  induction keys as [|k ks IH]; intro H; simpl; [reflexivity|].
  destruct (dict_get kv k) eqn:E;
    try (apply IH; intros k' l' Hk'; apply H; now right).
  exfalso. apply (H k l); [now left | exact E].
Qed.

Lemma first_list_under_none_inv (kv : dict) (keys : list string) :
  first_list_under kv keys = None -> forall k l, In k keys -> dict_get kv k <> PList l.
Proof.
  induction keys as [|k0 ks IH]; simpl; intros H k l Hk; [destruct Hk|].
  destruct Hk as [<-|Hk].
  - intro E. rewrite E in H. discriminate.
  - destruct (dict_get kv k0); try exact (IH H k l Hk). discriminate.
Qed.

(** C8: with status 204 the result is the empty list, whatever the body.
    With status 200 and a parsed payload it never raises: a bare list is
    returned as is; an object holding a list under "data", "results" or the
    endpoint's name (tried in this order) gives that list; an object holding
    none gives the empty list, and so does any other shape.  A payload
    {"data": l} and the bare list l give the same result. *)
Theorem fetch_normalizes (endpoint : string) (resp : http_response) :
  (status resp = 204 -> _fetch endpoint resp = Ok [])
  /\ (status resp = 200 -> forall p, body_json resp = Ok p ->
      (exists l, _fetch endpoint resp = Ok l)
      /\ (forall l, p = PList l -> _fetch endpoint resp = Ok l)
      /\ (forall kv l, p = PDict kv -> dict_get kv "data" = PList l ->
            _fetch endpoint resp = Ok l)
      /\ (forall kv, p = PDict kv ->
            (exists k l, In k ["data"; "results"; endpoint] /\ dict_get kv k = PList l) ->
            exists k l, In k ["data"; "results"; endpoint] /\ dict_get kv k = PList l
                        /\ _fetch endpoint resp = Ok l)
      /\ (forall kv, p = PDict kv ->
            (forall k l, In k ["data"; "results"; endpoint] -> dict_get kv k <> PList l) ->
            _fetch endpoint resp = Ok [])
      /\ ((forall l, p <> PList l) -> (forall kv, p <> PDict kv) -> _fetch endpoint resp = Ok []))
  /\ (forall l t1 t2,
        _fetch endpoint {| status := 200; body_text := t1; body_json := Ok (PDict [("data", PList l)]) |}
        = _fetch endpoint {| status := 200; body_text := t2; body_json := Ok (PList l) |}).
Proof.
  split; [|split].
  - intro H. unfold _fetch. now rewrite H.
  - intros H p Hp. unfold _fetch. rewrite H, Hp. simpl Z.eqb. cbv beta iota delta [bind negb].
    split; [|split; [|split; [|split; [|split]]]].
    + destruct p; try (eexists; reflexivity).
      destruct (first_list_under _ _); eexists; reflexivity.
    + intros l ->. reflexivity.
    + intros kv l -> Hd. simpl. now rewrite Hd.
    + intros kv -> (k & l & Hk & Hl).
      destruct (first_list_under kv ["data"; "results"; endpoint]) as [l'|] eqn:E.
      * destruct (first_list_under_some _ _ _ E) as (k' & Hk' & Hl').
        exists k', l'. auto.
      * exfalso. exact (first_list_under_none_inv _ _ E k l Hk Hl).
    + intros kv -> Hn. now rewrite first_list_under_none.
    + intros Hl Hd. destruct p as [| | | | |l|kv]; try reflexivity.
      * exfalso. exact (Hl l eq_refl).
      * exfalso. exact (Hd kv eq_refl).
  - intros l t1 t2. reflexivity.
Qed.

(** ** NOTAM fetch *)

Lemma prefix_app (b c : string) : String.prefix b (b ++ c) = true.
Proof.
  induction b as [|x b IH]; destruct c; simpl; try reflexivity;
    destruct (ascii_dec x x); congruence.
Qed.

Lemma str_contains_here (b c : string) : str_contains b (b ++ c) = true.
Proof.
  pose proof (prefix_app b c) as H.
  destruct b as [|a b]; [destruct c; reflexivity|].
  change (String a b ++ c) with (String a (b ++ c)) in *.
  cbn [str_contains]. now rewrite H.
Qed.

Lemma str_contains_app_l (sub a s : string) :
  str_contains sub s = true -> str_contains sub (a ++ s) = true.
Proof.
  intro H. induction a as [|x a IH]; [exact H|].
  change (String x a ++ s) with (String x (a ++ s)).
  cbn [str_contains]. destruct (String.prefix sub (String x (a ++ s))); [reflexivity | exact IH].
Qed.

Ltac contains_tac :=
  repeat (apply str_contains_here || apply str_contains_app_l).

Lemma extract_list_some (kv : dict) (l : list py) :
  first_list_under kv ["notams"; "items"; "data"; "results"] = Some l ->
  _extract_list (PDict kv) = Ok (dicts_only l).
Proof. intro H. unfold _extract_list. now rewrite H. Qed.

(** C9: for a station name that normalises to four characters, a timeout
    and an HTTP error status (400 or more, what [raise_for_status] rejects)
    both raise a [RuntimeError] whose message contains the station and the
    endpoint URL; a response that gets through has its payload extracted:
    a bare list gives its dict records, an object holding a list under
    notams, items, data or results (tried in this order) gives the dict
    records of that list, and every other shape raises [ValueError]; it is
    never turned into an empty list. *)
Theorem notam_fetch_failures_and_extraction (icao0 : string) (cfg : NotamApiConfig) :
  String.length (py_upper (py_strip icao0)) = 4%nat ->
  (exists msg, fetch_notams_for_icao icao0 cfg (TRaises TimeoutError) = Raise (RuntimeError msg)
               /\ str_contains (py_upper (py_strip icao0)) msg = true
               /\ str_contains (base_url cfg) msg = true)
  /\ (forall st j, (400 <= st)%Z ->
      exists msg, fetch_notams_for_icao icao0 cfg (TResponse st j) = Raise (RuntimeError msg)
                  /\ str_contains (py_upper (py_strip icao0)) msg = true
                  /\ str_contains (base_url cfg) msg = true)
  /\ (forall st p, (st < 400)%Z ->
      fetch_notams_for_icao icao0 cfg (TResponse st (Ok p)) = _extract_list p)
  /\ (forall l, _extract_list (PList l) = Ok (dicts_only l))
  /\ (forall kv, (exists k l, In k ["notams"; "items"; "data"; "results"] /\ dict_get kv k = PList l) ->
      exists k l, In k ["notams"; "items"; "data"; "results"] /\ dict_get kv k = PList l
                  /\ _extract_list (PDict kv) = Ok (dicts_only l))
  /\ (forall p, (forall l, p <> PList l) ->
      (forall kv, p = PDict kv -> forall k l, In k ["notams"; "items"; "data"; "results"] ->
                  dict_get kv k <> PList l) ->
      _extract_list p = Raise ValueError).
Proof.
  intro Hlen.
  assert (Hl : Nat.eqb (String.length (py_upper (py_strip icao0))) 4%nat = true)
    by now rewrite Hlen.
  split; [|split; [|split; [|split; [|split]]]].
  - unfold fetch_notams_for_icao. rewrite Hl. simpl negb. cbv beta iota zeta.
    eexists. split; [reflexivity|]. split; contains_tac.
  - intros st j Hst. unfold fetch_notams_for_icao. rewrite Hl.
    apply Z.leb_le in Hst. rewrite Hst. simpl negb. cbv beta iota zeta.
    eexists. split; [reflexivity|]. split; contains_tac.
  - intros st p Hst. unfold fetch_notams_for_icao. rewrite Hl.
    apply Z.leb_gt in Hst. rewrite Hst. reflexivity.
  - reflexivity.
  - intros kv (k & l & Hk & Hkl).
    destruct (first_list_under kv ["notams"; "items"; "data"; "results"]) as [l'|] eqn:E.
    + destruct (first_list_under_some _ _ _ E) as (k' & Hk' & Hl').
      exists k', l'. split; [exact Hk'|]. split; [exact Hl'|]. now apply extract_list_some.
    + exfalso. exact (first_list_under_none_inv _ _ E k l Hk Hkl).
  - intros p Hnl Hnd. destruct p as [| | | | |l|kv]; try reflexivity.
    + exfalso. exact (Hnl l eq_refl).
    + unfold _extract_list. rewrite first_list_under_none; [reflexivity|]. now apply Hnd.
Qed.

(** * Instances of the theorems at concrete inputs *)

Lemma ceil_ft_from_layers_spec_witness :
  clouds_well_formed
    [("clouds", PList [PDict [("cover", PStr "BKN"); ("base_ft_agl", PInt 2500)];
                       PDict [("cover", PStr "OVC"); ("base_ft_agl", PInt 1800)]])] = true
  /\ _ceil_ft_from_layers [("clouds", PList [])] = Ok (PStr "Clear").
Proof.
  split; [vm_compute; reflexivity|].
  exact (proj1 (proj2 (ceil_ft_from_layers_spec
    [("clouds", PList [PDict [("cover", PStr "BKN"); ("base_ft_agl", PInt 2500)];
                       PDict [("cover", PStr "OVC"); ("base_ft_agl", PInt 1800)]])] eq_refl))).
Defined.



Lemma altimeter_to_inhg_decoding_witness :
  is_digit "3"%char = true /\ is_digit "0"%char = true /\ is_digit "1"%char = true
  /\ _altimeter_to_inhg (PStr "A3011")
     = Ok (Some (Fin (Qred (inject_Z (four_digit_value "3" "0" "1" "1") / 100)))).
Proof.
  refine (conj eq_refl (conj eq_refl (conj eq_refl _))).
  exact (proj1 (altimeter_to_inhg_decoding "3" "0" "1" "1" eq_refl eq_refl eq_refl eq_refl)).
Defined.

Lemma fetch_normalizes_witness :
  _fetch "metar" {| status := 200; body_text := "";
                    body_json := Ok (PDict [("data", PList [PInt 1])]) |} = Ok [PInt 1].
Proof.
  destruct (fetch_normalizes "metar" {| status := 200; body_text := "";
                    body_json := Ok (PDict [("data", PList [PInt 1])]) |}) as (_ & H & _).
  destruct (H eq_refl (PDict [("data", PList [PInt 1])]) eq_refl) as (_ & _ & H3 & _).
  exact (H3 [("data", PList [PInt 1])] [PInt 1] eq_refl eq_refl).
Defined.

Lemma notam_fetch_failures_and_extraction_witness :
  String.length (py_upper (py_strip " kclt")) = 4%nat
  /\ exists msg,
       fetch_notams_for_icao " kclt"
         {| base_url := "https://notams.example/api"; api_key := None;
            timeout_s := 20; page_size := 200 |} (TRaises TimeoutError)
       = Raise (RuntimeError msg)
       /\ str_contains (py_upper (py_strip " kclt")) msg = true
       /\ str_contains "https://notams.example/api" msg = true.
Proof.
  split; [vm_compute; reflexivity|].
  exact (proj1 (notam_fetch_failures_and_extraction " kclt"
    {| base_url := "https://notams.example/api"; api_key := None;
       timeout_s := 20; page_size := 200 |} eq_refl)).
Defined.

(** * Further properties of the integration *)

(** ** Strings *)

Lemma length_list_ascii (s : string) : String.length s = length (list_ascii_of_string s).
Proof. induction s; simpl; auto. Qed.

Lemma list_upper_strip (s : string) :
  list_ascii_of_string (py_upper (py_strip s)) = map to_upper_char (strip_l (list_ascii_of_string s)).
Proof.
  unfold py_upper, py_strip. now rewrite !list_ascii_of_string_of_list_ascii.
Qed.

Lemma drop_spaces_head (l r : list ascii) (c : ascii) :
  drop_spaces l = c :: r -> is_space c = false.
Proof.
  induction l as [|x l IH]; simpl; [discriminate|].
  destruct (is_space x) eqn:E; [exact IH|]. intro H. injection H as <- _. exact E.
Qed.

Lemma strip_l_last (l l' : list ascii) (c : ascii) :
  strip_l l = (l' ++ [c])%list -> is_space c = false.
Proof.
  unfold strip_l. destruct (drop_spaces (rev (drop_spaces l))) as [|d ds] eqn:E.
  - simpl. intro H. destruct l'; discriminate.
  - simpl. intro H. apply app_inj_tail in H as [_ <-]. exact (drop_spaces_head _ _ _ E).
Qed.

Lemma to_upper_char_newline (c : ascii) : to_upper_char c = "010"%char -> c = "010"%char.
Proof.
  unfold to_upper_char. destruct (is_lower c) eqn:E; [|auto].
  intro H. exfalso. unfold is_lower in E. apply andb_prop in E as [E1 E2].
  apply Nat.leb_le in E1. apply Nat.leb_le in E2.
  apply (f_equal nat_of_ascii) in H. rewrite nat_ascii_embedding in H by (unfold code in *; lia).
  change (nat_of_ascii "010"%char) with 10%nat in H. unfold code in *. lia.
Qed.

(** A code accepted by [ICAO_RE] after [strip().upper()] is four characters
    of [A-Z0-9]: the trailing newline that [$] allows is stripped away. *)
Lemma icao_re_stripped (s : string) :
  ICAO_RE_match (py_upper (py_strip s)) = true ->
  String.length (py_upper (py_strip s)) = 4%nat
  /\ forallb icao_char (list_ascii_of_string (py_upper (py_strip s))) = true.
Proof.
  unfold ICAO_RE_match. rewrite length_list_ascii, list_upper_strip.
  remember (strip_l (list_ascii_of_string s)) as l eqn:El.
  destruct l as [|a [|b [|c [|d [|e [|f r]]]]]]; simpl; try discriminate.
  - intro H. split; [reflexivity|]. rewrite !andb_true_iff in *. tauto.
  - intro H. exfalso. rewrite !andb_true_iff in H. destruct H as [_ H].
    apply Ascii.eqb_eq, to_upper_char_newline in H. subst e.
    symmetry in El. change [a; b; c; d; "010"%char] with ([a; b; c; d] ++ ["010"%char])%list in El.
    apply strip_l_last in El. discriminate.
Qed.

Lemma icao_char_not_space (c : ascii) : icao_char c = true -> is_space c = false.
Proof.
  unfold icao_char, is_upper. intro H. apply orb_prop in H as [H|H]; [|now apply digit_no_space].
  apply andb_prop in H as [H1 _]. apply Nat.leb_le in H1. unfold is_space.
  rewrite (proj2 (Nat.leb_gt (code c) 13)) by lia.
  rewrite (proj2 (Nat.leb_gt (code c) 32)) by lia.
  now rewrite !andb_false_r.
Qed.

Lemma icao_char_not_lower (c : ascii) : icao_char c = true -> is_lower c = false.
Proof.
  unfold icao_char, is_upper, is_digit, is_lower. intro H.
  apply orb_prop in H as [H|H]; apply andb_prop in H as [_ H2]; apply Nat.leb_le in H2;
    now rewrite (proj2 (Nat.leb_gt 97 (code c))) by lia.
Qed.

Lemma drop_spaces_icao (l : list ascii) : forallb icao_char l = true -> drop_spaces l = l.
Proof.
  destruct l as [|c l]; [reflexivity|]. simpl. intro H. apply andb_prop in H as [Hc _].
  now rewrite (icao_char_not_space c Hc).
Qed.

(** A four-character [A-Z0-9] code is left as is by [strip().upper()]. *)
Lemma icao_code_normal (i : string) :
  forallb icao_char (list_ascii_of_string i) = true -> py_upper (py_strip i) = i.
Proof.
  intro H. unfold py_upper, py_strip, strip_l.
  rewrite (drop_spaces_icao _ H), drop_spaces_icao by now rewrite forallb_rev.
  rewrite rev_involutive, list_ascii_of_string_of_list_ascii.
  rewrite <- (string_of_list_ascii_of_string i) at 2. f_equal.
  induction (list_ascii_of_string i) as [|c l IH]; [reflexivity|].
  simpl in *. apply andb_prop in H as [Hc Hl]. unfold to_upper_char at 1.
  rewrite (icao_char_not_lower c Hc). now rewrite IH.
Qed.

(** ** Sorting: [sorted(set(...))] *)

Lemma insert_sorted_perm (x : string) (l : list string) :
  Permutation (insert_sorted x l) (x :: l).
Proof.
  induction l as [|y l IH]; simpl; [auto|].
  destruct (String.leb x y); [auto|].
  eapply perm_trans; [apply perm_skip, IH | apply perm_swap].
Qed.

Lemma sort_strings_perm (l : list string) : Permutation (sort_strings l) l.
Proof.
  induction l as [|x l IH]; simpl; [auto|].
  eapply perm_trans; [apply insert_sorted_perm | apply perm_skip, IH].
Qed.

Lemma leb_false_flip (a b : string) : String.leb a b = false -> String.leb b a = true.
Proof. intro H. destruct (String.leb_total a b) as [H'|H']; congruence. Qed.

Lemma insert_sorted_sorted (x : string) (l : list string) :
  Sorted str_le l -> Sorted str_le (insert_sorted x l).
Proof.
  induction l as [|y l IH]; intro Hs; simpl; [auto|].
  destruct (String.leb x y) eqn:Exy; [constructor; [exact Hs | now constructor]|].
  apply Sorted_inv in Hs as [Hl Hhd]. constructor; [now apply IH|].
  destruct l as [|z l]; simpl.
  - constructor. now apply leb_false_flip.
  - inversion Hhd; subst. destruct (String.leb x z); constructor; [now apply leb_false_flip | assumption].
Qed.

Lemma sort_strings_sorted (l : list string) : Sorted str_le (sort_strings l).
Proof. induction l as [|x l IH]; simpl; [constructor | now apply insert_sorted_sorted]. Qed.

Lemma sorted_le_nodup_lt (l : list string) : Sorted str_le l -> NoDup l -> Sorted str_lt l.
Proof.
  induction 1 as [|a l Hs IH Hhd]; intro Hnd; [constructor|].
  inversion Hnd as [|? ? Hnin Hnd']; subst. constructor; [now apply IH|].
  destruct Hhd as [|b l' Hab]; constructor.
  unfold str_le, str_lt, String.leb, String.ltb in *.
  destruct (String.compare a b) eqn:E; try discriminate; [|reflexivity].
  apply String.compare_eq_iff in E. subst. exfalso. apply Hnin. now left.
Qed.

(** [sorted(set(l))]: strictly increasing, the same elements as [l], and
    empty only when [l] is. *)
Lemma sorted_set_props (l : list string) :
  Sorted str_lt (sorted_set l) /\ (forall i, In i (sorted_set l) <-> In i l)
  /\ (l <> [] -> sorted_set l <> []).
Proof.
  unfold sorted_set.
  pose proof (sort_strings_perm (nodup string_dec l)) as P.
  assert (Hin : forall i, In i (sort_strings (nodup string_dec l)) <-> In i l).
  { intro i. transitivity (In i (nodup string_dec l)); [|apply nodup_In]. split; intro H.
    - exact (Permutation_in _ P H).
    - exact (Permutation_in _ (Permutation_sym P) H). }
  split; [|split; [exact Hin|]].
  - apply sorted_le_nodup_lt; [apply sort_strings_sorted|].
    apply (Permutation_NoDup (Permutation_sym P)), NoDup_nodup.
  - destruct l as [|a l]; [contradiction|]. intros _ E.
    assert (H : In a (a :: l)) by now left. apply Hin in H. rewrite E in H. contradiction.
Qed.

(** ** Station codes accepted by the flows *)

Lemma parse_icao_valid (raw : string) :
  icaos_invalid (parse_icao_list raw) = false ->
  parse_icao_list raw <> [] /\ forall i, In i (parse_icao_list raw) -> icao_code i.
Proof.
  intro H. split.
  - intro E. rewrite E in H. discriminate.
  - intros i Hi.
    assert (Hex : existsb (fun i => negb (ICAO_RE_match i)) (parse_icao_list raw) = false).
    { destruct (parse_icao_list raw); [contradiction | exact H]. }
    assert (Hm : ICAO_RE_match i = true).
    { destruct (ICAO_RE_match i) eqn:E; [reflexivity|].
      rewrite <- Hex. apply (proj2 (existsb_exists _ _)). exists i. split; [exact Hi | now rewrite E]. }
    unfold parse_icao_list in Hi. apply in_map_iff in Hi as [s [<- _]].
    now apply icao_re_stripped.
Qed.

Lemma icao_code_props (i : string) :
  icao_code i -> py_upper (py_strip i) = i /\ i <> "" /\ py_strip i <> "".
Proof.
  intros [Hlen Hc]. pose proof (icao_code_normal i Hc) as N.
  split; [exact N|]. split.
  - intro E. subst. discriminate.
  - intro E. rewrite E in N. subst. discriminate.
Qed.

Lemma clean_icaos_codes (L : list string) :
  (forall i, In i L -> icao_code i) -> clean_icaos L = L.
Proof.
  induction L as [|i L IH]; intro H; [reflexivity|].
  destruct (icao_code_props i (H i (or_introl eq_refl))) as [N [N1 N2]].
  unfold clean_icaos in *. simpl.
  rewrite (proj2 (String.eqb_neq i "") N1), (proj2 (String.eqb_neq (py_strip i) "") N2). simpl.
  rewrite N, IH; [reflexivity|]. intros j Hj. apply H. now right.
Qed.

(** The flows' common path: the codes they store. *)
Lemma stored_icaos_props (raw : string) :
  icaos_invalid (parse_icao_list raw) = false ->
  let L := sorted_set (parse_icao_list raw) in
  L <> [] /\ Sorted str_lt L /\ (forall i, In i L <-> In i (parse_icao_list raw))
  /\ Forall icao_code L.
Proof.
  intros Hv L. destruct (parse_icao_valid raw Hv) as [Hne Hall].
  destruct (sorted_set_props (parse_icao_list raw)) as [Hs [Hin Hne']].
  split; [now apply Hne'|]. split; [exact Hs|]. split; [exact Hin|].
  apply Forall_forall. intros i Hi. apply Hall, Hin, Hi.
Qed.

Lemma async_step_user_create (CI CS : string) (dflt : py) (ui : flow_input) (title : string) (data : dict) :
  async_step_user CI CS dflt (Some ui) = Ok (CreateEntry title data) ->
  icaos_invalid (parse_icao_list (input_icaos ui)) = false
  /\ exists scan, py_int (match input_scan ui with Some v => v | None => dflt end) = Ok scan
     /\ title = "AeroWeather" /\ data = entry_data_of CI CS (parse_icao_list (input_icaos ui)) scan.
Proof.
  unfold async_step_user. destruct (icaos_invalid _) eqn:Hv; [discriminate|].
  destruct (py_int _) as [scan|e] eqn:Hs; cbn [bind]; [|discriminate].
  intro H. injection H as <- <-. split; [reflexivity|]. eexists; eauto.
Qed.

Lemma entry_data_of_icaos (CI CS : string) (icaos0 : list string) (scan : Z) :
  dict_lookup (entry_data_of CI CS icaos0 scan) CI = Some (PList (map PStr (sorted_set icaos0))).
Proof. unfold entry_data_of. cbn [dict_lookup]. now rewrite String.eqb_refl. Qed.

Lemma map_PStr_inj (l l' : list string) : map PStr l = map PStr l' -> l = l'.
Proof.
  revert l'. induction l as [|a l IH]; intros [|b l'] H; try discriminate; [reflexivity|].
  simpl in H. injection H as -> H. f_equal. now apply IH.
Qed.

Lemma fetch_notams_code (i : string) (cfg : NotamApiConfig) :
  icao_code i ->
  (forall st p, (st < 400)%Z -> fetch_notams_for_icao i cfg (TResponse st (Ok p)) = _extract_list p)
  /\ exists msg, fetch_notams_for_icao i cfg (TRaises TimeoutError) = Raise (RuntimeError msg)
                 /\ str_contains i msg = true.
Proof.
  intro Hc. destruct (icao_code_props i Hc) as [N _]. destruct Hc as [Hlen _].
  unfold fetch_notams_for_icao. rewrite N, Hlen. simpl negb. cbv beta iota zeta.
  split.
  - intros st p Hst. now rewrite (proj2 (Z.leb_gt 400 st) Hst).
  - eexists. split; [reflexivity|]. contains_tac.
Qed.

(** ** [{**data, **options}] *)

Lemma dict_lookup_assoc (d : dict) (k : string) : dict_lookup d k = assoc d k.
Proof. induction d as [|[k' v] d IH]; simpl; [reflexivity|]. now rewrite IH. Qed.

Lemma assoc_assoc_set {V : Type} (k k' : string) (v : V) (l : list (string * V)) :
  assoc (assoc_set k v l) k' = if String.eqb k' k then Some v else assoc l k'.
Proof.
  induction l as [|[k0 v0] l IH]; simpl; [reflexivity|].
  destruct (String.eqb_spec k k0) as [->|Hne]; simpl.
  - destruct (String.eqb k' k0); reflexivity.
  - rewrite IH. destruct (String.eqb_spec k' k) as [->|Hk]; [|reflexivity].
    now rewrite (proj2 (String.eqb_neq k k0) Hne).
Qed.

Lemma assoc_app {V : Type} (l1 l2 : list (string * V)) (k : string) :
  assoc (l1 ++ l2) k = match assoc l1 k with Some v => Some v | None => assoc l2 k end.
Proof.
  induction l1 as [|[k0 v0] l1 IH]; simpl; [reflexivity|].
  destruct (String.eqb k k0); [reflexivity | exact IH].
Qed.

Lemma assoc_fold_assoc_set (d acc : dict) (k : string) :
  assoc (fold_left (fun acc kv => assoc_set (fst kv) (snd kv) acc) d acc) k
  = match assoc (rev d) k with Some v => Some v | None => assoc acc k end.
Proof.
  revert acc. induction d as [|[k0 v0] d IH]; intro acc; simpl; [reflexivity|].
  rewrite IH, assoc_app, assoc_assoc_set. simpl.
  destruct (assoc (rev d) k); [reflexivity|]. now destruct (String.eqb k k0).
Qed.

(** A key of [options] is read from [options], the others from [data]. *)
Lemma dict_lookup_merge (d1 d2 : dict) (k : string) :
  dict_lookup (dict_merge d1 d2) k
  = match assoc (rev d2) k with Some v => Some v | None => assoc (rev d1) k end.
Proof.
  unfold dict_merge. rewrite dict_lookup_assoc, assoc_fold_assoc_set, rev_app_distr, assoc_app.
  simpl. destruct (assoc (rev d2) k); [reflexivity|]. now destruct (assoc (rev d1) k).
Qed.

Lemma async_step_init_create (CI CS : string) (dflt : py) (entry : config_entry) (ui : flow_input)
    (title : string) (opts : dict) :
  async_step_init CI CS dflt entry (Some ui) = Ok (CreateEntry title opts) ->
  icaos_invalid (parse_icao_list (input_icaos ui)) = false
  /\ exists scan,
     py_int (match input_scan ui with
             | Some v => v
             | None => dict_get_default (dict_merge (entry_data entry) (entry_options entry)) CS dflt
             end) = Ok scan
     /\ title = "" /\ opts = entry_data_of CI CS (parse_icao_list (input_icaos ui)) scan.
Proof.
  unfold async_step_init. destruct (icaos_invalid _) eqn:Hv; [discriminate|].
  destruct (py_int _) as [scan|e] eqn:Hs; cbn [bind]; [|discriminate].
  intro H. injection H as <- <-. split; [reflexivity|]. eexists; eauto.
Qed.

(** * Further properties: configuration flows *)

(** config_flow.py [async_step_user]: when the user step creates the entry,
    it stores under the stations key a non-empty, strictly increasing list
    (so without repeats) holding exactly the codes of the submitted text,
    each one four characters from A-Z and 0-9. *)
Theorem config_flow_stores_sorted_codes (CI CS : string) (dflt : py) (ui : flow_input)
    (title : string) (data : dict) :
  async_step_user CI CS dflt (Some ui) = Ok (CreateEntry title data) ->
  exists L, dict_lookup data CI = Some (PList (map PStr L))
    /\ L <> [] /\ Sorted str_lt L
    /\ (forall i, In i L <-> In i (parse_icao_list (input_icaos ui)))
    /\ Forall icao_code L.
Proof.
  intro H. destruct (async_step_user_create CI CS dflt ui title data H) as [Hv [scan [_ [_ ->]]]].
  exists (sorted_set (parse_icao_list (input_icaos ui))). rewrite entry_data_of_icaos.
  destruct (stored_icaos_props _ Hv) as (A & B & C & D). auto.
Qed.

Lemma config_flow_stores_sorted_codes_witness :
  exists L, dict_lookup [("icaos", PList [PStr "KCLT"; PStr "KINT"]); ("scan_interval", PInt 600)] "icaos"
              = Some (PList (map PStr L))
    /\ L <> [] /\ Sorted str_lt L
    /\ (forall i, In i L <-> In i (parse_icao_list " kint; kclt,kint "))
    /\ Forall icao_code L.
Proof.
  apply (config_flow_stores_sorted_codes "icaos" "scan_interval" (PInt 600)
           {| input_icaos := " kint; kclt,kint "; input_scan := None |} "AeroWeather").
  vm_compute. reflexivity.
Defined.

(** The codes stored by the user step reach the NOTAM client as they are:
    [fetch_notams_bulk]'s cleaning leaves the list unchanged, and for each
    code the single-station fetch passes its length check, extracts the
    payload of a response below 400 and names the code in a timeout error. *)
Theorem configured_codes_reach_notam_api (CI CS : string) (dflt : py) (ui : flow_input)
    (title : string) (data : dict) (L : list string) (cfg : NotamApiConfig) :
  async_step_user CI CS dflt (Some ui) = Ok (CreateEntry title data) ->
  dict_lookup data CI = Some (PList (map PStr L)) ->
  clean_icaos L = L
  /\ forall i, In i L ->
     (forall st p, (st < 400)%Z -> fetch_notams_for_icao i cfg (TResponse st (Ok p)) = _extract_list p)
     /\ exists msg, fetch_notams_for_icao i cfg (TRaises TimeoutError) = Raise (RuntimeError msg)
                    /\ str_contains i msg = true.
Proof.
  intros H HL. destruct (async_step_user_create CI CS dflt ui title data H) as [Hv [scan [_ [_ ->]]]].
  rewrite entry_data_of_icaos in HL. injection HL as HL. apply map_PStr_inj in HL. subst L.
  destruct (stored_icaos_props _ Hv) as (_ & _ & _ & D). rewrite Forall_forall in D.
  split; [now apply clean_icaos_codes|]. intros i Hi. now apply fetch_notams_code, D.
Qed.

Lemma configured_codes_reach_notam_api_witness :
  clean_icaos ["KCLT"; "KINT"] = ["KCLT"; "KINT"]
  /\ forall i, In i ["KCLT"; "KINT"] ->
     (forall st p, (st < 400)%Z -> fetch_notams_for_icao i
        {| base_url := "https://notams.example"; api_key := None; timeout_s := 20; page_size := 100 |}
        (TResponse st (Ok p)) = _extract_list p)
     /\ exists msg, fetch_notams_for_icao i
        {| base_url := "https://notams.example"; api_key := None; timeout_s := 20; page_size := 100 |}
        (TRaises TimeoutError) = Raise (RuntimeError msg) /\ str_contains i msg = true.
Proof.
  apply (configured_codes_reach_notam_api "icaos" "scan_interval" (PInt 600)
           {| input_icaos := "kint;kclt"; input_scan := None |} "AeroWeather"
           [("icaos", PList [PStr "KCLT"; PStr "KINT"]); ("scan_interval", PInt 600)]).
  - vm_compute. reflexivity.
  - vm_compute. reflexivity.
Defined.

(** config_flow.py [async_step_init] then coordinator.py [__init__]: once
    the options step has saved its options, a coordinator built from the
    entry reads the newly chosen station list and interval, whatever the
    entry's data holds; the interval is the submitted one or else the one
    currently in effect, and one beyond [timedelta]'s range raises
    [OverflowError]. *)
Theorem options_flow_then_coordinator (CI CS : string) (dflt : py) (entry : config_entry)
    (ui : flow_input) (title : string) (opts : dict) :
  CI <> CS ->
  async_step_init CI CS dflt entry (Some ui) = Ok (CreateEntry title opts) ->
  exists scan,
    py_int (match input_scan ui with
            | Some v => v
            | None => dict_get_default (dict_merge (entry_data entry) (entry_options entry)) CS dflt
            end) = Ok scan
    /\ AeroWeatherCoordinator_init CI CS dflt
         {| entry_id := entry_id entry; entry_data := entry_data entry; entry_options := opts |}
       = if ((scan / 86400 <? -999999999) || (999999999 <? scan / 86400))%Z then Raise OverflowError
         else Ok {| coord_icaos := PList (map PStr (sorted_set (parse_icao_list (input_icaos ui))));
                    update_interval_s := scan |}.
Proof.
  intros Hne H. destruct (async_step_init_create CI CS dflt entry ui title opts H) as [_ [scan [Hs [_ ->]]]].
  exists scan. split; [exact Hs|].
  unfold AeroWeatherCoordinator_init, dict_get_default. cbn [entry_data entry_options].
  rewrite !dict_lookup_merge. unfold entry_data_of. cbn [rev app assoc].
  rewrite (proj2 (String.eqb_neq CI CS) Hne), !String.eqb_refl. cbn [py_int bind]. reflexivity.
Qed.

Lemma options_flow_then_coordinator_witness :
  exists scan,
    py_int (match Some (PStr " 900 ") with
            | Some v => v
            | None => dict_get_default (dict_merge [("icaos", PList [PStr "KJFK"]); ("scan_interval", PInt 300)] [])
                        "scan_interval" (PInt 600)
            end) = Ok scan
    /\ AeroWeatherCoordinator_init "icaos" "scan_interval" (PInt 600)
         {| entry_id := "e1"; entry_data := [("icaos", PList [PStr "KJFK"]); ("scan_interval", PInt 300)];
            entry_options := [("icaos", PList [PStr "KCLT"; PStr "KINT"]); ("scan_interval", PInt 900)] |}
       = if ((scan / 86400 <? -999999999) || (999999999 <? scan / 86400))%Z then Raise OverflowError
         else Ok {| coord_icaos := PList (map PStr (sorted_set (parse_icao_list "kint;kclt,KCLT")));
                    update_interval_s := scan |}.
Proof.
  apply (options_flow_then_coordinator "icaos" "scan_interval" (PInt 600)
           {| entry_id := "e1"; entry_data := [("icaos", PList [PStr "KJFK"]); ("scan_interval", PInt 300)];
              entry_options := [] |}
           {| input_icaos := "kint;kclt,KCLT"; input_scan := Some (PStr " 900 ") |} "").
  - discriminate.
  - vm_compute. reflexivity.
Defined.

(** ** Sensor entities *)

Lemma keys_DESCRIPTIONS (py_str : py -> string) :
  map (fun s => key (description s)) (DESCRIPTIONS py_str) = sensor_keys.
Proof. reflexivity. Qed.

Lemma lprefix_app (p r : list ascii) : lprefix p (p ++ r) = true.
Proof. induction p as [|a p IH]; simpl; [reflexivity|]. now rewrite Ascii.eqb_refl, IH. Qed.

Lemma list_ascii_app (a b : string) :
  list_ascii_of_string (a ++ b) = (list_ascii_of_string a ++ list_ascii_of_string b)%list.
Proof. induction a as [|c a IH]; simpl; [reflexivity|]. now rewrite IH. Qed.

Lemma list_ascii_inj (a b : string) : list_ascii_of_string a = list_ascii_of_string b -> a = b.
Proof.
  intro H. rewrite <- (string_of_list_ascii_of_string a), <- (string_of_list_ascii_of_string b).
  now rewrite H.
Qed.

Lemma sensor_key_no_tail (k1 k2 : string) (l : list ascii) :
  In k1 sensor_keys -> In k2 sensor_keys ->
  list_ascii_of_string k2 <> (l ++ "_"%char :: list_ascii_of_string k1)%list.
Proof.
  intros H1 H2 E.
  assert (H : no_key_ends_another sensor_keys = true) by (vm_compute; reflexivity).
  unfold no_key_ends_another in H. rewrite forallb_forall in H.
  specialize (H k1 H1). rewrite forallb_forall in H. specialize (H k2 H2).
  rewrite E, rev_app_distr in H. simpl rev in H.
  rewrite lprefix_app in H. discriminate.
Qed.

(** [f"{entry_id}_{icao}_{key}"] determines the station and the key. *)
Lemma unique_id_inj (e a b k1 k2 : string) :
  In k1 sensor_keys -> In k2 sensor_keys ->
  e ++ "_" ++ a ++ "_" ++ k1 = e ++ "_" ++ b ++ "_" ++ k2 -> a = b /\ k1 = k2.
Proof.
  intros H1 H2 E. apply (f_equal list_ascii_of_string) in E. rewrite !list_ascii_app in E.
  apply app_inv_head in E. simpl in E. injection E as E.
  apply app_eq_app in E as [l [[EA EK]|[EB EK]]]; destruct l as [|c l].
  - rewrite app_nil_r in EA. simpl in EK. injection EK as EK.
    split; apply list_ascii_inj; auto.
  - simpl in EK. injection EK as _ EK. exfalso. exact (sensor_key_no_tail k1 k2 l H1 H2 EK).
  - rewrite app_nil_r in EB. simpl in EK. injection EK as EK.
    split; apply list_ascii_inj; auto.
  - simpl in EK. injection EK as _ EK. exfalso. exact (sensor_key_no_tail k2 k1 l H2 H1 EK).
Qed.

Lemma NoDup_sensor_keys : NoDup sensor_keys.
Proof. unfold sensor_keys. repeat constructor; simpl; intuition discriminate. Qed.

Lemma unique_ids_of_setup (py_str : py -> string) (e : string) (icaos0 : list string) :
  map (fun p => sensor_unique_id e (fst p) (snd p)) (async_setup_entry py_str icaos0)
  = flat_map (fun icao => map (fun k => e ++ "_" ++ icao ++ "_" ++ k) sensor_keys) icaos0.
Proof.
  unfold async_setup_entry. induction icaos0 as [|a l IH]; cbn [flat_map]; [reflexivity|].
  rewrite map_app, IH. f_equal.
Qed.

(** * Further properties: sensor entities *)

(** sensor.py [async_setup_entry] and [AeroWeatherSensor.__init__]: for a
    station list without repeats, the thirteen entities created per station
    all get different unique ids [f"{entry_id}_{icao}_{key}"], whatever the
    station strings are: no key ends in an underscore followed by another
    key, so the id determines both the station and the key. *)
Theorem setup_entry_unique_ids (py_str : py -> string) (e : string) (icaos0 : list string) :
  NoDup icaos0 ->
  NoDup (map (fun p => sensor_unique_id e (fst p) (snd p)) (async_setup_entry py_str icaos0))
  /\ length (async_setup_entry py_str icaos0) = (13 * length icaos0)%nat.
Proof.
  intro Hnd. split.
  - rewrite unique_ids_of_setup.
    induction Hnd as [|a l Hnin Hnd IH]; cbn [flat_map]; [constructor|].
    apply NoDup_app; [|exact IH|].
    + apply NoDup_map_NoDup_ForallPairs; [|exact NoDup_sensor_keys].
      intros k1 k2 H1 H2 E. exact (proj2 (unique_id_inj e a a k1 k2 H1 H2 E)).
    + intros x Hx Hy. apply in_map_iff in Hx as [k1 [<- Hk1]].
      apply in_flat_map in Hy as [b [Hb Hy]]. apply in_map_iff in Hy as [k2 [E Hk2]].
      destruct (unique_id_inj e a b k1 k2 Hk1 Hk2 (eq_sym E)) as [-> _]. contradiction.
  - unfold async_setup_entry. induction icaos0 as [|a l IH]; cbn [flat_map]; [reflexivity|].
    rewrite length_app, length_map, IH by (inversion Hnd; assumption). simpl. lia.
Qed.

Lemma setup_entry_unique_ids_witness :
  NoDup (map (fun p => sensor_unique_id "entry1" (fst p) (snd p))
             (async_setup_entry (fun _ => "") ["KCLT"; "KINT"; "KRUQ"]))
  /\ length (async_setup_entry (fun _ => "") ["KCLT"; "KINT"; "KRUQ"]) = 39%nat.
Proof.
  apply (setup_entry_unique_ids (fun _ => "") "entry1" ["KCLT"; "KINT"; "KRUQ"]).
  repeat constructor; simpl; intuition discriminate.
Defined.

Lemma sensors_none_helper (py_str : py -> string) (d : snapshot) (i : string) :
  (_metar_item d i = None \/ _metar_item d i = Some []) ->
  (_taf_item d i = None \/ _taf_item d i = Some []) ->
  Forall (fun spec => value_fn spec d i = Ok PNone) (DESCRIPTIONS py_str).
Proof.
  intros Hm Ht. unfold DESCRIPTIONS.
  destruct Hm as [Hm|Hm], Ht as [Ht|Ht];
    repeat apply Forall_cons; try apply Forall_nil; cbn [value_fn];
    unfold metar_guard, _raw_metar, _raw_taf, _density_altitude_station, res_map;
    rewrite ?Hm, ?Ht; reflexivity.
Qed.

(** sensor.py [DESCRIPTIONS]: for a station that has no METAR record, or an
    empty one, and no TAF record, or an empty one, every one of the thirteen
    sensors reports [None]; none of them raises. *)
Theorem sensors_none_without_report (py_str : py -> string) (d : snapshot) (i : string) :
  (_metar_item d i = None \/ _metar_item d i = Some []) ->
  (_taf_item d i = None \/ _taf_item d i = Some []) ->
  Forall (fun spec => value_fn spec d i = Ok PNone) (DESCRIPTIONS py_str).
Proof. apply sensors_none_helper. Qed.

Lemma sensors_none_without_report_witness :
  Forall (fun spec => value_fn spec
            {| icaos := ["KCLT"; "KINT"]; metar := [("KCLT", [("rawOb", PStr "KCLT 121852Z")])];
               taf := [("KCLT", [("rawTAF", PStr "TAF KCLT")])] |} "KINT" = Ok PNone)
         (DESCRIPTIONS (fun _ => "")).
Proof.
  apply (sensors_none_without_report (fun _ => "")
           {| icaos := ["KCLT"; "KINT"]; metar := [("KCLT", [("rawOb", PStr "KCLT 121852Z")])];
              taf := [("KCLT", [("rawTAF", PStr "TAF KCLT")])] |} "KINT").
  - left. reflexivity.
  - left. reflexivity.
Defined.

(** sensor.py [AeroWeatherSensor.native_value]: before the coordinator has
    data ([coordinator.data or {}]), every sensor of every station reports
    [None]. *)
Theorem native_value_before_first_refresh (py_str : py -> string) (i : string) :
  Forall (fun spec => native_value None i spec = Ok PNone) (DESCRIPTIONS py_str).
Proof.
  unfold native_value. apply sensors_none_helper; left; reflexivity.
Qed.

(** ** Flight category *)

Lemma parse_ceiling_not_none (m : dict) (c : py) : _parse_ceiling_ft m = Ok c -> is_none c = false.
Proof.
  unfold _parse_ceiling_ft. destruct (negb (truthy (dict_get m "clouds"))).
  - intro H. injection H as <-. reflexivity.
  - unfold bind. destruct (py_iter _) as [ls|e]; [|discriminate].
    destruct (collect_ceilings ls) as [[|x xs]|e]; try discriminate;
      intro H; injection H as <-; reflexivity.
Qed.

Lemma flight_category_compute_cases (m : dict) (r : option string) :
  flight_category_compute m = Ok r ->
  exists c, r = Some c /\ In c ["LIFR"; "IFR"; "MVFR"; "VFR"].
Proof.
  intro H. unfold flight_category_compute in H.
  destruct (_parse_ceiling_ft m) as [c|e] eqn:Hc; cbn [bind] in H; [|discriminate].
  rewrite (parse_ceiling_not_none m c Hc) in H. cbn [andb] in H. cbv zeta in H.
  unfold bind in H.
  repeat (match type of H with context [match ?x with _ => _ end] => destruct x end;
          try discriminate).
  all: injection H as <-; eexists; split; [reflexivity | simpl; tauto].
Qed.

(** * Further properties: decoding *)

(** sensor.py [_flight_category_from_metar]: a successful call never gives
    [None]. The result is either the category the record reports (stripped
    and upper-cased), or one of LIFR, IFR, MVFR and VFR computed from ceiling
    and visibility. The [is None] test in the computation never succeeds,
    since [_parse_ceiling_ft] returns 0 rather than [None]. *)
Theorem flight_category_never_none (m : dict) (r : option string) :
  _flight_category_from_metar m = Ok r ->
  exists c, r = Some c
    /\ ((exists s, _first_present m FLTCAT_KEYS = PStr s /\ py_strip s <> "" /\ c = py_upper (py_strip s))
        \/ In c ["LIFR"; "IFR"; "MVFR"; "VFR"]).
Proof.
  unfold _flight_category_from_metar.
  destruct (_first_present m FLTCAT_KEYS) as [| | | |s| |] eqn:E;
    try (intro H; destruct (flight_category_compute_cases m r H) as [c [-> Hc]]; eauto).
  destruct (String.eqb_spec (py_strip s) "") as [Hs|Hs]; simpl negb; cbv iota.
  - intro H. destruct (flight_category_compute_cases m r H) as [c [-> Hc]]. eauto.
  - intro H. injection H as <-. eexists. split; [reflexivity|]. left. eauto.
Qed.

Lemma flight_category_never_none_witness :
  exists c, Some "MVFR" = Some c
    /\ ((exists s, _first_present [("visib", PInt 10);
          ("clouds", PList [PDict [("cover", PStr "BKN"); ("base_ft_agl", PInt 2500)]])] FLTCAT_KEYS = PStr s
          /\ py_strip s <> "" /\ c = py_upper (py_strip s))
        \/ In c ["LIFR"; "IFR"; "MVFR"; "VFR"]).
Proof.
  apply (flight_category_never_none [("visib", PInt 10);
          ("clouds", PList [PDict [("cover", PStr "BKN"); ("base_ft_agl", PInt 2500)]])]).
  vm_compute. reflexivity.
Defined.

(** ** notams.py [fetch_notams_bulk] *)

Lemma assoc_some_in {V : Type} (l : list (string * V)) (k : string) (v : V) :
  assoc l k = Some v -> In k (map fst l).
Proof.
  induction l as [|[k' v'] l IH]; simpl; [discriminate|].
  destruct (String.eqb_spec k k') as [->|_]; [auto | intro H; right; auto].
Qed.

Lemma in_assoc_some {V : Type} (l : list (string * V)) (k : string) :
  In k (map fst l) -> exists v, assoc l k = Some v.
Proof.
  induction l as [|[k' v'] l IH]; simpl; [contradiction|].
  destruct (String.eqb_spec k k') as [->|Hne]; [eauto|].
  intros [E|H]; [congruence | auto].
Qed.

Lemma assoc_set_keys_nodup {V : Type} (k : string) (v : V) (l : list (string * V)) :
  NoDup (map fst l) -> NoDup (map fst (assoc_set k v l)).
Proof.
  induction l as [|[k' v'] l IH]; simpl; intro H; [constructor; [auto | constructor]|].
  inversion H as [|? ? Hn Hl]; subst.
  destruct (String.eqb_spec k k') as [->|Hne]; simpl; [now constructor|].
  constructor; [|now apply IH].
  intro Hin. apply assoc_set_keys in Hin as [E|E]; [congruence | contradiction].
Qed.

Section Gather.

Variable cfg : NotamApiConfig.
Variable transport : string -> notam_transport.

Lemma gather_ok (acc : list (string * list dict)) (l : list string) (res0 : list (string * list dict)) :
  gather_notams cfg transport acc l = Ok res0 ->
  forall k, (In k l -> exists r, fetch_notams_for_icao k cfg (transport k) = Ok r /\ assoc res0 k = Some r)
            /\ (~ In k l -> assoc res0 k = assoc acc k).
Proof.
  revert acc. induction l as [|i l IH]; intros acc H k; simpl in H.
  - injection H as <-. split; [contradiction | reflexivity].
  - unfold bind in H. destruct (fetch_notams_for_icao i cfg (transport i)) as [r|e] eqn:Ei; [|discriminate].
    destruct (IH _ H k) as [Hin Hout]. rewrite assoc_assoc_set in Hout.
    split.
    + intros [E|Hk]; [subst i|now apply Hin].
      destruct (in_dec string_dec k l) as [Hk|Hk]; [now apply Hin|].
      exists r. split; [exact Ei|]. rewrite (Hout Hk). now rewrite String.eqb_refl.
    + intro Hk. rewrite (Hout (fun H' => Hk (or_intror H'))).
      destruct (String.eqb_spec k i) as [->|_]; [exfalso; apply Hk; now left | reflexivity].
Qed.

Lemma gather_keys_nodup (acc : list (string * list dict)) (l : list string) (res0 : list (string * list dict)) :
  NoDup (map fst acc) -> gather_notams cfg transport acc l = Ok res0 -> NoDup (map fst res0).
Proof.
  revert acc. induction l as [|i l IH]; intros acc Hnd H; simpl in H.
  - injection H as <-. exact Hnd.
  - unfold bind in H. destruct (fetch_notams_for_icao i cfg (transport i)); [|discriminate].
    exact (IH _ (assoc_set_keys_nodup _ _ _ Hnd) H).
Qed.

Lemma gather_raise (acc : list (string * list dict)) (l : list string) (e : exn) :
  gather_notams cfg transport acc l = Raise e ->
  exists i, In i l /\ fetch_notams_for_icao i cfg (transport i) = Raise e.
Proof.
  revert acc. induction l as [|i l IH]; intros acc H; simpl in H; [discriminate|].
  unfold bind in H. destruct (fetch_notams_for_icao i cfg (transport i)) as [r|e'] eqn:Ei.
  - destruct (IH _ H) as [j [Hj Ej]]. exists j. split; [now right | exact Ej].
  - injection H as <-. exists i. split; [now left | exact Ei].
Qed.

Lemma gather_raises_if (acc : list (string * list dict)) (l : list string) (i : string) (e : exn) :
  In i l -> fetch_notams_for_icao i cfg (transport i) = Raise e ->
  exists e', gather_notams cfg transport acc l = Raise e'.
Proof.
  revert acc. induction l as [|j l IH]; intros acc Hi Hf; [destruct Hi|].
  simpl. unfold bind. destruct Hi as [<-|Hi].
  - rewrite Hf. eauto.
  - destruct (fetch_notams_for_icao j cfg (transport j)); [now apply IH | eauto].
Qed.

End Gather.

(** * Further properties: NOTAM client *)

(** notams.py [fetch_notams_bulk]: when the bulk fetch succeeds, its result
    has one entry per station of the cleaned list (the non-blank entries,
    stripped and upper-cased), no other key and no repeated key, and the
    entry of each station is what the single-station fetch returns for it. *)
Theorem fetch_notams_bulk_results (icaos0 : list string) (cfg : NotamApiConfig)
    (transport : string -> notam_transport) (res0 : list (string * list dict)) :
  fetch_notams_bulk icaos0 cfg transport = Ok res0 ->
  NoDup (map fst res0)
  /\ forall k, (In k (map fst res0) <-> In k (clean_icaos icaos0))
       /\ (In k (clean_icaos icaos0) ->
           exists r, fetch_notams_for_icao k cfg (transport k) = Ok r /\ assoc res0 k = Some r).
Proof.
  unfold fetch_notams_bulk. intro H. split; [exact (gather_keys_nodup cfg transport [] _ _ (NoDup_nil _) H)|].
  intro k. destruct (gather_ok cfg transport [] _ _ H k) as [Hin Hout]. split; [|exact Hin].
  split.
  - intro Hk. destruct (in_dec string_dec k (clean_icaos icaos0)) as [Hc|Hc]; [exact Hc|].
    destruct (in_assoc_some _ _ Hk) as [v Hv]. rewrite (Hout Hc) in Hv. discriminate.
  - intro Hc. destruct (Hin Hc) as [r [_ Hr]]. exact (assoc_some_in _ _ _ Hr).
Qed.

Lemma fetch_notams_bulk_results_witness :
  NoDup (map fst [("KCLT", [[("id", PStr "A1")]]); ("KINT", [])])
  /\ forall k, (In k (map fst [("KCLT", [[("id", PStr "A1")]]); ("KINT", [])])
                <-> In k (clean_icaos [" kclt"; ""; "  "; "KINT"]))
       /\ (In k (clean_icaos [" kclt"; ""; "  "; "KINT"]) ->
           exists r, fetch_notams_for_icao k
                       {| base_url := "https://notams.example"; api_key := None; timeout_s := 20; page_size := 100 |}
                       ((fun i => if String.eqb i "KCLT"
                                  then TResponse 200 (Ok (PDict [("items", PList [PDict [("id", PStr "A1")]])]))
                                  else TResponse 200 (Ok (PList []))) k) = Ok r
                     /\ assoc [("KCLT", [[("id", PStr "A1")]]); ("KINT", [])] k = Some r).
Proof.
  apply (fetch_notams_bulk_results [" kclt"; ""; "  "; "KINT"]
           {| base_url := "https://notams.example"; api_key := None; timeout_s := 20; page_size := 100 |}
           (fun i => if String.eqb i "KCLT"
                     then TResponse 200 (Ok (PDict [("items", PList [PDict [("id", PStr "A1")]])]))
                     else TResponse 200 (Ok (PList [])))).
  vm_compute. reflexivity.
Defined.

(** notams.py [fetch_notams_bulk]: the bulk fetch fails exactly when the
    fetch of some station of the cleaned list fails: its exception is one
    raised by such a fetch, and one failing station (a code that is not
    four characters, say) makes the whole call raise, with no partial
    result returned. *)
Theorem fetch_notams_bulk_failures (icaos0 : list string) (cfg : NotamApiConfig)
    (transport : string -> notam_transport) :
  (forall e, fetch_notams_bulk icaos0 cfg transport = Raise e ->
     exists i, In i (clean_icaos icaos0) /\ fetch_notams_for_icao i cfg (transport i) = Raise e)
  /\ (forall i e, In i (clean_icaos icaos0) -> fetch_notams_for_icao i cfg (transport i) = Raise e ->
        exists e', fetch_notams_bulk icaos0 cfg transport = Raise e').
Proof.
  unfold fetch_notams_bulk. split.
  - intros e H. exact (gather_raise cfg transport [] _ e H).
  - intros i e Hi Hf. exact (gather_raises_if cfg transport [] _ i e Hi Hf).
Qed.

(** ** The options form's default text *)

Lemma str_compare_refl (s : string) : String.compare s s = Eq.
Proof.
  induction s as [|a s IH]; simpl; [reflexivity|].
  unfold Ascii.compare. now rewrite N.compare_refl.
Qed.

Lemma str_compare_lt_trans (s1 s2 s3 : string) :
  String.compare s1 s2 = Lt -> String.compare s2 s3 = Lt -> String.compare s1 s3 = Lt.
Proof.
  revert s2 s3. induction s1 as [|a s1 IH]; intros [|b s2] [|c s3]; simpl; try discriminate; auto.
  unfold Ascii.compare.
  destruct (N.compare_spec (N_of_ascii a) (N_of_ascii b)) as [Hab|Hab|Hab];
    destruct (N.compare_spec (N_of_ascii b) (N_of_ascii c)) as [Hbc|Hbc|Hbc];
    intros H1 H2; try discriminate;
    destruct (N.compare_spec (N_of_ascii a) (N_of_ascii c)) as [Hac|Hac|Hac];
    try reflexivity; try lia; eauto.
Qed.

Lemma str_lt_trans (a b c : string) : str_lt a b -> str_lt b c -> str_lt a c.
Proof.
  unfold str_lt, String.ltb. intros H1 H2.
  destruct (String.compare a b) eqn:E1; try discriminate.
  destruct (String.compare b c) eqn:E2; try discriminate.
  now rewrite (str_compare_lt_trans a b c E1 E2).
Qed.

Lemma str_lt_irrefl (a : string) : ~ str_lt a a.
Proof. unfold str_lt, String.ltb. now rewrite str_compare_refl. Qed.

Lemma str_lt_le (a b : string) : str_lt a b -> str_le a b.
Proof.
  unfold str_lt, str_le, String.ltb, String.leb. destruct (String.compare a b); auto.
Qed.

Lemma sorted_lt_nodup (l : list string) : Sorted str_lt l -> NoDup l.
Proof.
  intro H. apply Sorted_StronglySorted in H; [|exact str_lt_trans].
  induction H as [|a l Hs IH Hall]; constructor; [|exact IH].
  intro Ha. rewrite Forall_forall in Hall. exact (str_lt_irrefl a (Hall a Ha)).
Qed.

Lemma sort_strings_sorted_id (l : list string) : Sorted str_le l -> sort_strings l = l.
Proof.
  induction 1 as [|a l Hs IH Hhd]; [reflexivity|].
  simpl. rewrite IH. destruct Hhd as [|b l' Hab]; [reflexivity|].
  simpl. unfold str_le in Hab. now rewrite Hab.
Qed.

(** [sorted(set(L))] of a strictly increasing [L] is [L]. *)
Lemma sorted_set_sorted_id (l : list string) : Sorted str_lt l -> sorted_set l = l.
Proof.
  intro H. unfold sorted_set. rewrite nodup_fixed_point by now apply sorted_lt_nodup.
  apply sort_strings_sorted_id. clear -H.
  induction H as [|a l Hs IH Hhd]; constructor; [exact IH|].
  destruct Hhd; constructor. now apply str_lt_le.
Qed.

Lemma split_on_app_sep (sep : ascii) (p rest : list ascii) :
  forallb (fun c => negb (Ascii.eqb c sep)) p = true ->
  split_on sep (p ++ sep :: rest) = p :: split_on sep rest.
Proof.
  induction p as [|c p IH]; simpl; intro H.
  - now rewrite Ascii.eqb_refl.
  - apply andb_prop in H as [Hc Hp]. apply negb_true_iff in Hc. rewrite Hc, IH by exact Hp.
    reflexivity.
Qed.

Lemma split_on_no_sep (sep : ascii) (p : list ascii) :
  forallb (fun c => negb (Ascii.eqb c sep)) p = true -> split_on sep p = [p].
Proof.
  induction p as [|c p IH]; simpl; intro H; [reflexivity|].
  apply andb_prop in H as [Hc Hp]. apply negb_true_iff in Hc. now rewrite Hc, IH.
Qed.

Lemma icao_char_not_punct (c : ascii) (p : ascii) :
  icao_char c = true -> (p = ","%char \/ p = ";"%char) -> Ascii.eqb c p = false.
Proof.
  intros H Hp. apply Ascii.eqb_neq. intros ->.
  destruct Hp as [->| ->]; discriminate.
Qed.

Lemma icao_no_sep (i : string) (p : ascii) :
  icao_code i -> (p = ","%char \/ p = ";"%char) ->
  forallb (fun c => negb (Ascii.eqb c p)) (list_ascii_of_string i) = true.
Proof.
  intros [_ Hc] Hp. induction (list_ascii_of_string i) as [|c l IH]; [reflexivity|].
  simpl in *. apply andb_prop in Hc as [Hc Hl].
  rewrite (icao_char_not_punct c p Hc Hp). simpl. now apply IH.
Qed.

Lemma replace_char_app (a b : ascii) (x y : string) :
  replace_char a b (x ++ y) = replace_char a b x ++ replace_char a b y.
Proof.
  unfold replace_char. rewrite list_ascii_app, map_app.
  apply list_ascii_inj. rewrite list_ascii_app, !list_ascii_of_string_of_list_ascii. reflexivity.
Qed.

Lemma replace_char_id (a b : ascii) (x : string) :
  forallb (fun c => negb (Ascii.eqb c a)) (list_ascii_of_string x) = true -> replace_char a b x = x.
Proof.
  intro H. unfold replace_char. rewrite <- (string_of_list_ascii_of_string x) at 2. f_equal.
  induction (list_ascii_of_string x) as [|c l IH]; [reflexivity|].
  simpl in *. apply andb_prop in H as [Hc Hl]. apply negb_true_iff in Hc. now rewrite Hc, IH.
Qed.

(** Splitting [",".join(L)] (after [replace(";", ",")]) gives [L] back. *)
Lemma split_join_codes (L : list string) :
  L <> [] -> Forall icao_code L ->
  split_str ","%char (replace_char ";"%char ","%char (String.concat "," L)) = L.
Proof.
  induction L as [|x [|y L] IH]; intros Hne Hall; [contradiction| |].
  - inversion Hall as [|? ? Hx _]; subst. simpl String.concat.
    rewrite replace_char_id by (apply icao_no_sep; auto).
    unfold split_str. rewrite split_on_no_sep by (apply icao_no_sep; auto).
    simpl. unfold str_of. now rewrite string_of_list_ascii_of_string.
  - inversion Hall as [|? ? Hx Hrest]; subst.
    change (String.concat "," (x :: y :: L)) with (x ++ "," ++ String.concat "," (y :: L)).
    rewrite !replace_char_app, (replace_char_id _ _ x) by (apply icao_no_sep; auto).
    change (replace_char ";"%char ","%char ",") with ",".
    unfold split_str. rewrite list_ascii_app. cbn [list_ascii_of_string append].
    rewrite split_on_app_sep by (apply icao_no_sep; auto).
    cbn [map]. unfold str_of at 1. rewrite string_of_list_ascii_of_string. f_equal.
    apply IH; [discriminate | exact Hrest].
Qed.

Lemma icao_code_match (i : string) : icao_code i -> ICAO_RE_match i = true.
Proof.
  intros [Hlen Hc]. unfold ICAO_RE_match. rewrite length_list_ascii in Hlen.
  destruct (list_ascii_of_string i) as [|a [|b [|c [|d [|e l]]]]]; try discriminate.
  simpl in Hc. rewrite !andb_true_r in Hc. now rewrite <- !andb_assoc.
Qed.

(** [",".join(L)] of stored codes parses back to [L] and passes the check. *)
Lemma parse_join_codes (L : list string) :
  L <> [] -> Forall icao_code L ->
  parse_icao_list (String.concat "," L) = L /\ icaos_invalid L = false.
Proof.
  intros Hne Hall. unfold parse_icao_list. rewrite split_join_codes by assumption.
  rewrite Forall_forall in Hall. split.
  - rewrite (forallb_filter_id _ L).
    + induction L as [|x L IH]; [reflexivity|]. simpl.
      rewrite (proj1 (icao_code_props x (Hall x (or_introl eq_refl)))). f_equal.
      destruct L; [reflexivity|]. apply IH; [discriminate|]. intros j Hj. apply Hall. now right.
    + apply forallb_forall. intros x Hx. apply negb_true_iff, String.eqb_neq.
      exact (proj2 (proj2 (icao_code_props x (Hall x Hx)))).
  - destruct L as [|x L]; [contradiction|]. unfold icaos_invalid.
    apply not_true_iff_false. intro H. apply existsb_exists in H as [j [Hj Hm]].
    rewrite (icao_code_match j (Hall j Hj)) in Hm. discriminate.
Qed.

(** * Further properties: the options form *)

(** config_flow.py [async_step_init]: the form offers [",".join(...)] of the
    stored stations as the default text. Submitting that text unchanged,
    for a list as the user step stores it (non-empty, strictly increasing,
    four-character A-Z/0-9 codes), is never rejected and stores the same
    list again. The interval is the submitted one or else the one currently
    in effect. *)
Theorem options_form_default_round_trip (CI CS : string) (dflt : py) (entry : config_entry)
    (L : list string) (scan_in : option py) :
  L <> [] -> Sorted str_lt L -> Forall icao_code L ->
  async_step_init CI CS dflt entry (Some {| input_icaos := String.concat "," L; input_scan := scan_in |})
  = res_map (fun scan => CreateEntry "" [(CI, PList (map PStr L)); (CS, PInt scan)])
      (py_int (match scan_in with
               | Some v => v
               | None => dict_get_default (dict_merge (entry_data entry) (entry_options entry)) CS dflt
               end)).
Proof.
  intros Hne Hs Hall. destruct (parse_join_codes L Hne Hall) as [Hp Hv].
  unfold async_step_init. cbn [input_icaos input_scan]. rewrite Hp, Hv.
  unfold res_map, entry_data_of. rewrite (sorted_set_sorted_id L Hs). reflexivity.
Qed.

Lemma options_form_default_round_trip_witness :
  async_step_init "icaos" "scan_interval" (PInt 600)
    {| entry_id := "e1"; entry_data := [("icaos", PList [PStr "KCLT"; PStr "KINT"]); ("scan_interval", PInt 300)];
       entry_options := [] |}
    (Some {| input_icaos := String.concat "," ["KCLT"; "KINT"]; input_scan := None |})
  = res_map (fun scan => CreateEntry "" [("icaos", PList (map PStr ["KCLT"; "KINT"])); ("scan_interval", PInt scan)])
      (py_int (match @None py with
               | Some v => v
               | None => dict_get_default
                           (dict_merge [("icaos", PList [PStr "KCLT"; PStr "KINT"]); ("scan_interval", PInt 300)] [])
                           "scan_interval" (PInt 600)
               end)).
Proof.
  apply (options_form_default_round_trip "icaos" "scan_interval" (PInt 600)
           {| entry_id := "e1"; entry_data := [("icaos", PList [PStr "KCLT"; PStr "KINT"]); ("scan_interval", PInt 300)];
              entry_options := [] |} ["KCLT"; "KINT"] None).
  - discriminate.
  - vm_compute. repeat constructor.
  - vm_compute. repeat constructor.
Defined.

(** ** Errors of the single-station NOTAM fetch *)

Lemma raise_inj {A : Type} (a b : exn) : Raise (A := A) a = Raise b -> a = b.
Proof. intro H. now injection H. Qed.

Lemma extract_list_raise (p : py) (e : exn) : _extract_list p = Raise e -> e = ValueError.
Proof.
  unfold _extract_list. destruct p; try (intro H; injection H as <-; reflexivity).
  - discriminate.
  - destruct (first_list_under _ _); [discriminate | intro H; injection H as <-; reflexivity].
Qed.


(** * Further properties: NOTAM errors *)

(** notams.py [fetch_notams_for_icao]: it raises only two kinds of
    exception. A [ValueError] comes from a code that is not four characters
    after [strip().upper()] (checked before any request), or from a payload
    that got through but has an unexpected shape. Every other failure
    (timeout, HTTP error status, transport or JSON decoding error) becomes a
    [RuntimeError] whose message names the station and the endpoint URL. *)
Theorem notam_fetch_error_kinds (icao0 : string) (cfg : NotamApiConfig) (t : notam_transport) (e : exn) :
  fetch_notams_for_icao icao0 cfg t = Raise e ->
  (e = ValueError
   /\ (String.length (py_upper (py_strip icao0)) <> 4%nat
       \/ exists st p, t = TResponse st (Ok p) /\ (st < 400)%Z /\ _extract_list p = Raise ValueError))
  \/ (exists msg, e = RuntimeError msg /\ str_contains (py_upper (py_strip icao0)) msg = true
                  /\ str_contains (base_url cfg) msg = true).
Proof.
  unfold fetch_notams_for_icao.
  destruct (Nat.eqb_spec (String.length (py_upper (py_strip icao0))) 4) as [Hl|Hl];
    simpl negb; cbv iota zeta; intro H.
  - destruct t as [e0|st j].
    + right. destruct e0; apply raise_inj in H; subst e; eexists; (split; [reflexivity|]); split; contains_tac.
    + destruct (Z.leb_spec 400 st) as [Hst|Hst].
      * right. apply raise_inj in H; subst e. eexists. split; [reflexivity|]. split; contains_tac.
      * destruct j as [p|e0].
        -- left. pose proof (extract_list_raise p e H) as ->. split; [reflexivity|].
           right. exists st, p. auto.
        -- right. destruct e0; apply raise_inj in H; subst e; eexists; (split; [reflexivity|]); split; contains_tac.
  - left. apply raise_inj in H; subst e. split; [reflexivity | left; exact Hl].
Qed.

Lemma notam_fetch_error_kinds_witness :
  (RuntimeError "NOTAM request failed for KCLT (base_url=https://notams.example): " = ValueError
   /\ (String.length (py_upper (py_strip " kclt")) <> 4%nat
       \/ exists st p, TResponse 200 (Raise JSONDecodeError) = TResponse st (Ok p) /\ (st < 400)%Z
                       /\ _extract_list p = Raise ValueError))
  \/ (exists msg, RuntimeError "NOTAM request failed for KCLT (base_url=https://notams.example): "
                  = RuntimeError msg
                  /\ str_contains (py_upper (py_strip " kclt")) msg = true
                  /\ str_contains (base_url {| base_url := "https://notams.example"; api_key := None;
                                               timeout_s := 20; page_size := 100 |}) msg = true).
Proof.
  apply (notam_fetch_error_kinds " kclt"
           {| base_url := "https://notams.example"; api_key := None; timeout_s := 20; page_size := 100 |}
           (TResponse 200 (Raise JSONDecodeError))).
  vm_compute. reflexivity.
Defined.

(** * Further properties: field aliases *)

(** sensor.py [_first_present]: the result is the value of the first alias,
    in the order given, whose value is present and not [None]. Falsy
    values such as 0 or "" count as present. When no alias qualifies, the
    result is [None]. *)
Theorem first_present_first_alias (d : dict) (keys : list string) :
  (_first_present d keys = PNone /\ forall k, In k keys -> dict_get d k = PNone)
  \/ exists (pre : list string) (k : string) (post : list string),
       keys = (pre ++ k :: post)%list
       /\ (forall k', In k' pre -> dict_get d k' = PNone)
       /\ dict_get d k = _first_present d keys /\ _first_present d keys <> PNone.
Proof.
  induction keys as [|k ks IH]; simpl.
  - left. split; [reflexivity | contradiction].
  - unfold dict_get at 1 3.
    destruct (dict_lookup d k) as [v|] eqn:E;
      [destruct v; try (right; exists [], k, ks; split; [reflexivity|];
                        split; [contradiction|]; unfold dict_get; rewrite E; split; [reflexivity|discriminate])|].
    all: destruct IH as [[H1 H2]|(pre & k' & post & -> & H1 & H2 & H3)];
      [left; split; [exact H1|]; intros k0 [<-|Hk]; [unfold dict_get; now rewrite E | now apply H2]
      |right; exists (k :: pre), k', post; split; [reflexivity|]; split; [|split; [exact H2 | exact H3]];
       intros k0 [<-|Hk]; [unfold dict_get; now rewrite E | now apply H1]].
Qed.

Lemma fetch_notams_bulk_failures_witness :
  exists e', fetch_notams_bulk ["kclt"; " ABC "]
               {| base_url := "https://notams.example"; api_key := None; timeout_s := 20; page_size := 100 |}
               (fun _ => TResponse 200 (Ok (PList []))) = Raise e'.
Proof.
  apply (proj2 (fetch_notams_bulk_failures ["kclt"; " ABC "]
           {| base_url := "https://notams.example"; api_key := None; timeout_s := 20; page_size := 100 |}
           (fun _ => TResponse 200 (Ok (PList [])))) "ABC" ValueError).
  - vm_compute. tauto.
  - vm_compute. reflexivity.
Defined.
